(** * AirlineChat: the api-gateway's per-session flow orchestration

    A shallow embedding of [api-gateway/index.js] (the socket handlers
    [identify], [message], [disconnect]) together with the three services
    it drives: [ApiAdapters], [AiService] and [CosmosDbService].

    JavaScript values are a small JSON-like datatype; [await]ed calls are
    sequenced in a state-and-exception monad; everything outside the
    process (the OpenAI completions, the partner REST endpoints, the Cosmos
    DB requests, the clock) is read from an environment [Env], one per
    handler invocation.  A handler runs to completion before the next one
    starts. *)

From stdpp Require Import gmap strings list sorting.
From Stdlib Require Import ZArith Lia.

Open Scope string_scope.
Open Scope list_scope.
#[local] Set Warnings "-register-all".

(** ** JavaScript values *)

(** The values that [JSON.parse] can produce, plus [undefined] for absent
    properties.  Numbers are the integers (step counters, status codes). *)
Inductive JsVal : Type :=
| JUndefined
| JNull
| JBool (b : bool)
| JNum (n : Z)
| JStr (s : string)
| JArr (items : list JsVal)
| JObj (fields : list (string * JsVal)).

(** [ToBoolean]: what [if (v)], [v || w] and [!v] test. *)
Definition truthy (v : JsVal) : bool :=
  match v with
  | JUndefined | JNull => false
  | JBool b => b
  | JNum n => negb (n =? 0)%Z
  | JStr s => negb (String.eqb s "")
  | JArr _ | JObj _ => true
  end.

(** [a || b] *)
Definition js_or (a b : JsVal) : JsVal := if truthy a then a else b.

(** The empty object literal [{}]. *)
Definition empty_object : JsVal := JObj [].

Fixpoint assoc (k : string) (fs : list (string * JsVal)) : JsVal :=
  match fs with
  | [] => JUndefined
  | (k', v) :: rest => if String.eqb k k' then v else assoc k rest
  end.

(** [o.k] for an [o] that is neither [null] nor [undefined]: own properties
    of an object, [undefined] on primitives and arrays (no property name
    read by the gateway is ["length"] or an index). *)
Definition prop (o : JsVal) (k : string) : JsVal :=
  match o with
  | JObj fs => assoc k fs
  | _ => JUndefined
  end.

(** [v === "literal"], as the [switch] statements compare. *)
Definition is_str (v : JsVal) (lit : string) : bool :=
  match v with
  | JStr s => String.eqb s lit
  | _ => false
  end.

(** ** Exceptions *)

(** A thrown [Error]: its [message], and [error.response] (status and body)
    when axios attached one. *)
Record JsError : Type := MkError {
  err_message : string;
  err_response : option (Z * JsVal)
}.

Definition TypeError : JsError :=
  MkError "Cannot read properties of undefined" None.

Inductive Exc (A : Type) : Type :=
| Ok (a : A)
| Throw (e : JsError).
Arguments Ok {A} a.
Arguments Throw {A} e.

(** [o.k] in general: a [TypeError] on [null] and [undefined]. *)
Definition get (o : JsVal) (k : string) : Exc JsVal :=
  match o with
  | JUndefined | JNull => Throw TypeError
  | _ => Ok (prop o k)
  end.

(** ** Data model *)

Inductive FlowKind : Type := QUERY_FLIGHT | BUY_TICKET | CHECK_IN.

Definition flow_name (k : FlowKind) : string :=
  match k with
  | QUERY_FLIGHT => "QUERY_FLIGHT"
  | BUY_TICKET => "BUY_TICKET"
  | CHECK_IN => "CHECK_IN"
  end.

(** A chat message, as the client sends it and as the gateway builds it. *)
Record Message : Type := MkMessage {
  msg_id : string;
  msg_content : JsVal;
  msg_timestamp : string;
  msg_sender : string;
  msg_userId : string
}.

(** An entry of [userSessions]. *)
Record Session : Type := MkSession {
  userId : string;
  activeFlow : JsVal;
  currentStep : JsVal;
  collectedParams : JsVal;
  conversationHistory : list Message
}.

(** The templates of the prompts handed to [AiService.generateResponse]. *)
Inductive Prompt : Type :=
| PromptSearchResults | PromptSearchError
| PromptBookingResult | PromptCheckInResult
| PromptStartQuery | PromptStartBuy | PromptStartCheckIn
| PromptFlowSearchResults | PromptFlowSearchError
| PromptFlowBookingResult | PromptFlowBookingError
| PromptFlowCheckInResult | PromptFlowCheckInError
| PromptFlowStep.

(** What a handler does that the outside can observe. *)
Inductive Event : Type :=
| Adapter (kind : FlowKind) (params : JsVal)
| Generate (p : Prompt)
| EmitMessage (m : Message)
| EmitHistory (h : list Message).

(** ** The environment of one handler invocation *)

(** Outcome of an axios request to a partner endpoint. *)
Inductive HttpOutcome : Type :=
| Responded (status : Z) (data : JsVal)
| Rejected (status : Z) (data : JsVal) (message : string)
| NoResponse (message : string).

(** Outcome of the chat-completion request of [detectIntent]: the request
    (or reading [choices[0].message.content]) throws, or it yields a text
    on which [JSON.parse] throws ([None]) or returns a value. *)
Inductive Completion : Type :=
| RequestFailed (e : JsError)
| Replied (parsed : option JsVal).

Record Env : Type := MkEnv {
  now_ms : string;                  (* Date.now().toString() *)
  now_iso : string;                 (* new Date().toISOString() *)
  openai : bool;                    (* this.openai is not null *)
  classifier : Completion;
  composer : nat -> option JsVal;   (* n-th generateResponse completion; None: throws *)
  auth : bool;                      (* a token is cached or the login succeeds *)
  http : HttpOutcome;
  db : nat -> bool                  (* n-th Cosmos DB request succeeds *)
}.

(** ** The monad of a handler body *)

Record St : Type := MkSt {
  st_session : Session;
  st_container : option (list Message);   (* this.container; None: not initialised *)
  st_trace : list Event;
  st_generated : nat;
  st_requests : nat
}.

Definition M (A : Type) : Type := St -> Exc A * St.

Definition ret {A} (a : A) : M A := fun st => (Ok a, st).

Definition bind {A B} (m : M A) (k : A -> M B) : M B :=
  fun st =>
    match m st with
    | (Ok a, st') => k a st'
    | (Throw e, st') => (Throw e, st')
    end.

Definition throw {A} (e : JsError) : M A := fun st => (Throw e, st).

(** [try { m } catch (error) { h error }]: what [m] did to the state before
    it threw stays done. *)
Definition try_catch {A} (m : M A) (h : JsError -> M A) : M A :=
  fun st =>
    match m st with
    | (Ok a, st') => (Ok a, st')
    | (Throw e, st') => h e st'
    end.

Definition lift {A} (x : Exc A) : M A := fun st => (x, st).

Notation "x <- m ;; k" := (bind m (fun x => k))
  (at level 100, m at next level, right associativity).
Notation "m ;;; k" := (bind m (fun _ => k))
  (at level 100, right associativity).

Definition read_session : M Session := fun st => (Ok (st_session st), st).

Definition with_session (f : Session -> Session) (st : St) : St :=
  MkSt (f (st_session st)) (st_container st) (st_trace st)
       (st_generated st) (st_requests st).

Definition update_session (f : Session -> Session) : M unit :=
  fun st => (Ok tt, with_session f st).

Definition logged (e : Event) (st : St) : St :=
  MkSt (st_session st) (st_container st) (st_trace st ++ [e])
       (st_generated st) (st_requests st).

Definition log (e : Event) : M unit := fun st => (Ok tt, logged e st).

Definition set_activeFlow (v : JsVal) (s : Session) : Session :=
  MkSession (userId s) v (currentStep s) (collectedParams s) (conversationHistory s).

Definition set_currentStep (v : JsVal) (s : Session) : Session :=
  MkSession (userId s) (activeFlow s) v (collectedParams s) (conversationHistory s).

Definition set_collectedParams (v : JsVal) (s : Session) : Session :=
  MkSession (userId s) (activeFlow s) (currentStep s) v (conversationHistory s).

Definition set_conversationHistory (h : list Message) (s : Session) : Session :=
  MkSession (userId s) (activeFlow s) (currentStep s) (collectedParams s) h.

(** [session.conversationHistory.push(m)] *)
Definition push_history (m : Message) (s : Session) : Session :=
  set_conversationHistory (conversationHistory s ++ [m]) s.

(** ** AiService *)

Definition classifier_apology : string :=
  "I'm sorry, I'm having trouble understanding right now. Could you try again or rephrase your request?".

(** The object [detectIntent] returns from its [catch] block. *)
Definition fallback_intent : JsVal :=
  JObj [("action", JStr "CHAT"); ("response", JStr classifier_apology)].

(** [processFlowStep(response, conversationState)] *)
Definition processFlowStep (response : JsVal) (activeFlow_now : JsVal) : JsVal :=
  response.

(** [detectIntent(message, conversationState)].  Only [activeFlow] of the
    conversation state decides anything; step and parameters go into the
    prompt text. *)
Definition detectIntent (env : Env) (activeFlow_now : JsVal) : M JsVal :=
  try_catch
    (if negb (openai env) then
       throw (MkError "OpenAI client is not available. Please check your API key." None)
     else
       match classifier env with
       | RequestFailed e => throw e
       | Replied parsed =>
           try_catch
             (match parsed with
              | None => throw (MkError "Unexpected token in JSON" None)
              | Some parsedResponse =>
                  if truthy activeFlow_now then
                    action <- lift (get parsedResponse "action") ;;
                    if is_str action "CONTINUE_FLOW"
                    then ret (processFlowStep parsedResponse activeFlow_now)
                    else ret parsedResponse
                  else ret parsedResponse
              end)
             (fun parseError => throw (MkError "Failed to parse AI response" None))
       end)
    (fun error => ret fallback_intent).

Definition composer_apology : JsVal :=
  JStr "I'm sorry, I encountered an issue. Can you please try again?".

(** The text [generateResponse] returns on its [n]-th call: the
    completion's, or the apology of its own [catch] block. *)
Definition composed (env : Env) (n : nat) : JsVal :=
  if openai env then
    match composer env n with
    | Some text => text
    | None => composer_apology
    end
  else composer_apology.

Definition generated (p : Prompt) (st : St) : St :=
  MkSt (st_session st) (st_container st) (st_trace st ++ [Generate p])
       (S (st_generated st)) (st_requests st).

(** [generateResponse(conversation)]; it never throws. *)
Definition generateResponse (env : Env) (p : Prompt) : M JsVal :=
  fun st => (Ok (composed env (st_generated st)), generated p st).

(** ** ApiAdapters *)

(** [ensureAuthenticated()]: true or false, never an exception. *)
Definition ensureAuthenticated (env : Env) : M bool := ret (auth env).

(** The request itself: axios resolves with the response or rejects with an
    error that carries [response] when the server answered. *)
Definition request (env : Env) : M (Z * JsVal) :=
  match http env with
  | Responded status data => ret (status, data)
  | Rejected status data message => throw (MkError message (Some (status, data)))
  | NoResponse message => throw (MkError message None)
  end.

(** [searchFlights(params)] returns [response.data] and rethrows every
    failure as a new [Error]. *)
Definition searchFlights (env : Env) (params : JsVal) : M JsVal :=
  log (Adapter QUERY_FLIGHT params) ;;;
  try_catch
    (lift (get params "dateFrom") ;;;
     lift (get params "dateTo") ;;;
     lift (get params "origin") ;;;
     lift (get params "destination") ;;;
     lift (get params "passengers") ;;;
     response <- request env ;;
     ret (snd response))
    (fun error =>
       throw (MkError (String.append "Failed to search flights: " (err_message error)) None)).

(** What [bookTicket] and [checkIn] return: the response data tagged
    [status: 'success'], the API's error envelope, or the [status: 'failed']
    envelope of a network or other error. *)
Inductive ActionResult : Type :=
| Succeeded (data : JsVal) (statusCode : Z)
| ApiError (statusCode : Z) (errorData : JsVal)
| Failed (message : string).

Definition envelope (error : JsError) : ActionResult :=
  match err_response error with
  | Some (status, data) => ApiError status data
  | None => Failed (err_message error)
  end.

(** [bookTicket(ticketData)] *)
Definition bookTicket (env : Env) (ticketData : JsVal) : M ActionResult :=
  log (Adapter BUY_TICKET ticketData) ;;;
  try_catch
    (ensureAuthenticated env ;;;
     lift (get ticketData "flightNumber") ;;;
     lift (get ticketData "flightDate") ;;;
     lift (get ticketData "passengerNames") ;;;
     response <- request env ;;
     ret (Succeeded (snd response) (fst response)))
    (fun error => ret (envelope error)).

(** [checkIn(checkInData)]: its reads are [checkInData?.field]. *)
Definition checkIn (env : Env) (checkInData : JsVal) : M ActionResult :=
  log (Adapter CHECK_IN checkInData) ;;;
  try_catch
    (ensureAuthenticated env ;;;
     response <- request env ;;
     ret (Succeeded (snd response) (fst response)))
    (fun error => ret (envelope error)).

(** ** CosmosDbService *)

(** [saveMessage(message)]: the created item, or [null] when the container
    is not initialised or [items.create] fails. *)
Definition saveMessage (env : Env) (message : Message) : M (option Message) :=
  fun st =>
    match st_container st with
    | None => (Ok None, st)
    | Some docs =>
        let n := st_requests st in
        if db env n
        then (Ok (Some message),
              MkSt (st_session st) (Some (docs ++ [message])) (st_trace st)
                   (st_generated st) (S n))
        else (Ok None,
              MkSt (st_session st) (Some docs) (st_trace st) (st_generated st) (S n))
    end.

(** [ORDER BY c.timestamp DESC]: ISO timestamps compare as strings.  Among
    equal timestamps the order is the store's choice; here the document
    created first comes first. *)
Fixpoint insert_desc (m : Message) (sorted : list Message) : list Message :=
  match sorted with
  | [] => [m]
  | x :: rest =>
      if String.ltb (msg_timestamp m) (msg_timestamp x)
      then x :: insert_desc m rest
      else m :: x :: rest
  end.

Definition order_by_timestamp_desc (docs : list Message) : list Message :=
  foldr insert_desc [] docs.

(** [SELECT * FROM c WHERE c.userId = @userId ORDER BY c.timestamp DESC
    OFFSET 0 LIMIT @limit] *)
Definition query_recent (uid : string) (limit : nat) (docs : list Message)
  : list Message :=
  take limit (order_by_timestamp_desc (filter (λ c, msg_userId c = uid) docs)).

(** [getConversationHistory(userId, limit = 20)]: the query's items
    reversed, or [[]] without a container or when the query fails. *)
Definition getConversationHistory (env : Env) (uid : string) (limit : nat)
  : M (list Message) :=
  fun st =>
    match st_container st with
    | None => (Ok [], st)
    | Some docs =>
        let n := st_requests st in
        let st' := MkSt (st_session st) (Some docs) (st_trace st)
                        (st_generated st) (S n) in
        if db env n
        then (Ok (reverse (query_recent uid limit docs)), st')
        else (Ok [], st')
    end.

Definition default_limit : nat := 20.

(** ** The gateway: [index.js] *)

(** [userSessions], keyed by [socket.id], and the service's container. *)
Record World : Type := MkWorld {
  userSessions : gmap string Session;
  container : option (list Message)
}.

Definition welcome_text : JsVal :=
  JStr "Welcome to Airline Chat! How can I help you today?".

Definition assistant_message (env : Env) (uid : string) (content : JsVal) : Message :=
  MkMessage (now_ms env) content (now_iso env) "assistant" uid.

(** The session object [identify] stores before it awaits anything. *)
Definition new_session (uid : string) : Session :=
  MkSession uid JNull JNull empty_object [].

(** Body of [socket.on('identify', ...)] after the session is stored.  The
    emitted [history] is serialised before the welcome message is pushed
    onto the same array. *)
Definition identify_body (env : Env) (uid : string) : M unit :=
  try_catch
    (history <- getConversationHistory env uid default_limit ;;
     if (0 <? length history)%nat then
       update_session (set_conversationHistory history) ;;;
       log (EmitHistory history)
     else ret tt)
    (fun error => ret tt) ;;;
  let welcomeMessage := assistant_message env uid welcome_text in
  log (EmitMessage welcomeMessage) ;;;
  update_session (push_history welcomeMessage) ;;;
  try_catch (saveMessage env welcomeMessage ;;; ret tt) (fun error => ret tt).

(** The [case] label that [switch (intent.action)] selects. *)
Inductive ActionCase : Type :=
| CaseQueryFlight | CaseBuyTicket | CaseCheckIn
| CaseStartQueryFlow | CaseStartBuyFlow | CaseStartCheckinFlow
| CaseContinueFlow | CaseChat | CaseDefault.

Definition action_case (action : JsVal) : ActionCase :=
  if is_str action "QUERY_FLIGHT" then CaseQueryFlight
  else if is_str action "BUY_TICKET" then CaseBuyTicket
  else if is_str action "CHECK_IN" then CaseCheckIn
  else if is_str action "START_QUERY_FLOW" then CaseStartQueryFlow
  else if is_str action "START_BUY_FLOW" then CaseStartBuyFlow
  else if is_str action "START_CHECKIN_FLOW" then CaseStartCheckinFlow
  else if is_str action "CONTINUE_FLOW" then CaseContinueFlow
  else if is_str action "CHAT" then CaseChat
  else CaseDefault.

(** The [case] label that [switch (intent.flow)] selects; it has no
    [default]. *)
Definition flow_case (flow : JsVal) : option FlowKind :=
  if is_str flow "QUERY_FLIGHT" then Some QUERY_FLIGHT
  else if is_str flow "BUY_TICKET" then Some BUY_TICKET
  else if is_str flow "CHECK_IN" then Some CHECK_IN
  else None.

Definition search_error_text : JsVal :=
  JStr "I'm sorry, I encountered an error while searching for flights. Please try again.".
Definition booking_error_text : JsVal :=
  JStr "I'm sorry, I encountered an error while booking your ticket. Please try again.".
Definition checkin_error_text : JsVal :=
  JStr "I'm sorry, I encountered an error while processing your check-in. Please try again.".
Definition rephrase_text : JsVal :=
  JStr "I'm not sure I understand. Could you please rephrase your request?".
Definition processing_error_text : JsVal :=
  JStr "I'm sorry, I encountered an error processing your request. Please try again.".

(** [// Reset flow] *)
Definition reset_flow : M unit :=
  update_session (set_activeFlow JNull) ;;;
  update_session (set_currentStep JNull).

(** A [START_*_FLOW] case.  Once [intent.action] has been read, [intent] is
    neither [null] nor [undefined] and its other properties are read with
    [prop]. *)
Definition start_flow (env : Env) (intent : JsVal) (kind : FlowKind)
    (p : Prompt) (ask : string) : M JsVal :=
  update_session (set_activeFlow (JStr (flow_name kind))) ;;;
  update_session (set_currentStep (JNum 1)) ;;;
  update_session (set_collectedParams (js_or (prop intent "parameters") empty_object)) ;;;
  try_catch
    (generateResponse env p)
    (fun error => ret (js_or (prop intent "response") (JStr ask))).

(** The completion of one flow kind: the [try] calls the adapter, composes
    the reply and resets the flow; the [catch] composes an apology. *)
Definition complete_flow (env : Env) (kind : FlowKind) : M JsVal :=
  match kind with
  | QUERY_FLIGHT =>
      try_catch
        (session <- read_session ;;
         flights <- searchFlights env (collectedParams session) ;;
         aiResponse <- generateResponse env PromptFlowSearchResults ;;
         reset_flow ;;;
         ret aiResponse)
        (fun error =>
           try_catch
             (generateResponse env PromptFlowSearchError)
             (fun innerError => ret search_error_text))
  | BUY_TICKET =>
      try_catch
        (session <- read_session ;;
         ticketResult <- bookTicket env (collectedParams session) ;;
         aiResponse <- generateResponse env PromptFlowBookingResult ;;
         reset_flow ;;;
         ret aiResponse)
        (fun error =>
           try_catch
             (generateResponse env PromptFlowBookingError)
             (fun innerError => ret booking_error_text))
  | CHECK_IN =>
      try_catch
        (session <- read_session ;;
         checkInResult <- checkIn env (collectedParams session) ;;
         aiResponse <- generateResponse env PromptFlowCheckInResult ;;
         reset_flow ;;;
         ret aiResponse)
        (fun error =>
           try_catch
             (generateResponse env PromptFlowCheckInError)
             (fun innerError => ret checkin_error_text))
  end.

(** [case 'CONTINUE_FLOW'] *)
Definition continue_flow (env : Env) (intent : JsVal) : M JsVal :=
  update_session (set_activeFlow (prop intent "flow")) ;;;
  update_session (set_currentStep (prop intent "nextStep")) ;;;
  update_session (set_collectedParams (js_or (prop intent "collectedParams") empty_object)) ;;;
  if truthy (prop intent "isFlowComplete") then
    match flow_case (prop intent "flow") with
    | Some kind => complete_flow env kind
    | None => ret (JStr "")
    end
  else
    try_catch
      (generateResponse env PromptFlowStep)
      (fun error => ret (prop intent "response")).

(** [let responseContent = ''; switch (intent.action) { ... }]: the value
    of [responseContent] after the [switch]. *)
Definition respond (env : Env) (intent : JsVal) : M JsVal :=
  action <- lift (get intent "action") ;;
  match action_case action with
  | CaseQueryFlight =>
      try_catch
        (flights <- searchFlights env (prop intent "parameters") ;;
         generateResponse env PromptSearchResults)
        (fun error =>
           try_catch
             (generateResponse env PromptSearchError)
             (fun innerError => ret search_error_text))
  | CaseBuyTicket =>
      try_catch
        (ticketResult <- bookTicket env (prop intent "parameters") ;;
         generateResponse env PromptBookingResult)
        (fun error => ret booking_error_text)
  | CaseCheckIn =>
      try_catch
        (checkInResult <- checkIn env (prop intent "parameters") ;;
         generateResponse env PromptCheckInResult)
        (fun error => ret checkin_error_text)
  | CaseStartQueryFlow =>
      start_flow env intent QUERY_FLIGHT PromptStartQuery
        "Let's search for flights. Could you please tell me your departure and destination airports?"
  | CaseStartBuyFlow =>
      start_flow env intent BUY_TICKET PromptStartBuy
        "I'll help you book a ticket. Could you please provide the flight number you'd like to book?"
  | CaseStartCheckinFlow =>
      start_flow env intent CHECK_IN PromptStartCheckIn
        "Let's check you in for your flight. Could you please provide your flight number?"
  | CaseContinueFlow => continue_flow env intent
  | CaseChat | CaseDefault =>
      ret (js_or (prop intent "response") rephrase_text)
  end.

(** Body of [socket.on('message', ...)] once the session has been found. *)
Definition message_body (env : Env) (message : Message) : M unit :=
  try_catch
    (saveMessage env message ;;;
     update_session (push_history message))
    (fun error => ret tt) ;;;
  try_catch
    (session <- read_session ;;
     intent <- detectIntent env (activeFlow session) ;;
     responseContent <- respond env intent ;;
     let assistantMessage := assistant_message env (userId session) responseContent in
     log (EmitMessage assistantMessage) ;;;
     update_session (push_history assistantMessage) ;;;
     try_catch (saveMessage env assistantMessage ;;; ret tt) (fun error => ret tt))
    (fun error =>
       session <- read_session ;;
       log (EmitMessage (assistant_message env (userId session) processing_error_text))).

Definition start (session : Session) (w : World) : St :=
  MkSt session (container w) [] 0 0.

Definition finish (sid : string) (w : World) (st : St) : World * list Event :=
  (MkWorld (<[sid := st_session st]> (userSessions w)) (st_container st), st_trace st).

(** [socket.on('identify', async (userId) => ...)] *)
Definition on_identify (env : Env) (sid uid : string) (w : World)
  : World * list Event :=
  finish sid w (snd (identify_body env uid (start (new_session uid) w))).

(** [socket.on('message', async (message) => ...)] from its session guard
    on, for a payload that is an object: without a session the message is
    dropped. *)
Definition on_message (env : Env) (sid : string) (message : Message) (w : World)
  : World * list Event :=
  match userSessions w !! sid with
  | None => (w, [])
  | Some session => finish sid w (snd (message_body env message (start session w)))
  end.

(** The whole handler of [message], on whatever the client emitted: the
    payload is an object, or it is [null] or [undefined] ([None]).  The
    handler's first statement reads [message.content], before the session
    guard and outside every [try]: on a payload that is not an object the
    handler throws there, and nothing catches what it throws. *)
Definition on_message_event (env : Env) (sid : string) (payload : option Message)
    (w : World) : Exc (World * list Event) :=
  match payload with
  | None => Throw TypeError
  | Some message => Ok (on_message env sid message w)
  end.

(** [socket.on('disconnect', ...)] *)
Definition on_disconnect (sid : string) (w : World) : World * list Event :=
  (MkWorld (delete sid (userSessions w)) (container w), []).

(** What arrives on the sockets: an [identify], a [message] whose payload
    is an object, a [disconnect].  (A [message] without an object as
    payload ends its handler before it reads or writes anything, see
    [on_message_event].) *)
Inductive Input : Type :=
| Identify (sid uid : string)
| Incoming (sid : string) (message : Message)
| Disconnect (sid : string).

Definition step (env : Env) (i : Input) (w : World) : World * list Event :=
  match i with
  | Identify sid uid => on_identify env sid uid w
  | Incoming sid message => on_message env sid message w
  | Disconnect sid => on_disconnect sid w
  end.

(** A run: the inputs in arrival order, each with its environment; the
    events of all handlers in order. *)
Fixpoint run (inputs : list (Env * Input)) (w : World) : World * list Event :=
  match inputs with
  | [] => (w, [])
  | (env, i) :: rest =>
      let (w1, events1) := step env i w in
      let (w2, events2) := run rest w1 in
      (w2, events1 ++ events2)
  end.

(** The server right after it started. *)
Definition boot (c : option (list Message)) : World := MkWorld ∅ c.

(** The adapter calls among some events, in order. *)
Definition adapter_calls (events : list Event) : list (FlowKind * JsVal) :=
  omap (fun e => match e with Adapter kind params => Some (kind, params) | _ => None end)
       events.

(** The contents of the messages emitted on the socket. *)
Definition replies (events : list Event) : list JsVal :=
  omap (fun e => match e with EmitMessage m => Some (msg_content m) | _ => None end)
       events.

(** ** AiService: the messages of [generateResponse] *)

Definition assistant_brief : string :=
  "You are a helpful airline ticketing assistant. 
          You help users find flights, book tickets, and check in for their flights.
          Provide concise, user-friendly responses.".

(** [msg => ({role: msg.sender === 'user' ? 'user' : 'assistant',
    content: msg.content})] *)
Definition chat_message (msg : JsVal) : Exc (string * JsVal) :=
  match get msg "sender" with
  | Ok sender =>
      Ok (if is_str sender "user" then "user" else "assistant", prop msg "content")
  | Throw e => Throw e
  end.

(** [conversation.map(...)] *)
Fixpoint chat_messages_of (conversation : list JsVal) : Exc (list (string * JsVal)) :=
  match conversation with
  | [] => Ok []
  | msg :: rest =>
      match chat_message msg with
      | Ok m =>
          match chat_messages_of rest with
          | Ok ms => Ok (m :: ms)
          | Throw e => Throw e
          end
      | Throw e => Throw e
      end
  end.

(** The [messages] of the completion request, as role and content. *)
Definition chat_messages (conversation : list JsVal) : Exc (list (string * JsVal)) :=
  match chat_messages_of conversation with
  | Ok ms => Ok (("system", JStr assistant_brief) :: ms)
  | Throw e => Throw e
  end.

(** The conversation the gateway hands to [generateResponse]:
    [[{sender: 'system', content: aiPrompt}, {sender: 'user', content}]]. *)
Definition prompted (aiPrompt content : JsVal) : list JsVal :=
  [JObj [("sender", JStr "system"); ("content", aiPrompt)];
   JObj [("sender", JStr "user"); ("content", content)]].

(** ** CosmosDbService: construction, initialisation, deletion *)

(** [container.item(id, userId).delete()]: the document with that id in
    the user's partition goes (ids are unique within a partition). *)
Definition delete_item (uid id : string) (docs : list Message) : list Message :=
  filter (λ c, ¬ (msg_userId c = uid ∧ msg_id c = id)) docs.

(** The deletes that [items.map(...)] starts, one request per id; under
    [Promise.allSettled] one that fails is passed over. *)
Fixpoint delete_each (env : Env) (uid : string) (ids : list string) (n : nat)
    (docs : list Message) : list Message :=
  match ids with
  | [] => docs
  | id :: rest =>
      delete_each env uid rest (S n)
        (if db env n then delete_item uid id docs else docs)
  end.

(** [SELECT c.id FROM c WHERE c.userId = @userId] *)
Definition query_ids (uid : string) (docs : list Message) : list string :=
  map msg_id (filter (λ c, msg_userId c = uid) docs).

(** [deleteConversationHistory(userId)]: [false] without a container or
    when the query fails, [true] once the deletes have settled. *)
Definition deleteConversationHistory (env : Env) (uid : string) : M bool :=
  fun st =>
    match st_container st with
    | None => (Ok false, st)
    | Some docs =>
        let n := st_requests st in
        if db env n then
          let ids := query_ids uid docs in
          (Ok true,
           MkSt (st_session st) (Some (delete_each env uid ids (S n) docs))
                (st_trace st) (st_generated st) (S n + length ids))
        else
          (Ok false,
           MkSt (st_session st) (Some docs) (st_trace st) (st_generated st) (S n))
    end.

Module Cosmos.

(** The fields of a [CosmosDbService]: whether [client] and [database] are
    set, and the container's documents once [container] is. *)
Record Service : Type := MkService {
  client : bool;
  database : bool;
  documents : option (list Message)
}.

(** [new CosmosDbService()]: without an endpoint or a key, or when
    [new CosmosClient] throws, there is no client; the constructor sets no
    container either way. *)
Definition construct (endpoint key : option string) (client_created : bool) : Service :=
  match endpoint, key with
  | Some e, Some k =>
      if String.eqb e "" || String.eqb k "" then MkService false false None
      else MkService client_created false None
  | _, _ => MkService false false None
  end.

(** What Cosmos DB answers during [initialize()]: to [getDatabaseAccount],
    to the two [createIfNotExists] (the second with the documents the
    container holds), to the test document's [create] and [delete]. *)
Record Answers : Type := MkAnswers {
  account : bool;
  database_created : bool;
  container_created : option (list Message);
  test_written : bool;
  test_deleted : bool
}.

(** [initialize()].  The test document has no [userId]; left behind, no
    query by user returns it, and the documents here are the messages. *)
Definition initialize (a : Answers) (s : Service) : bool * Service :=
  if negb (client s) then (false, s)
  else if negb (account a) then (false, s)
  else if negb (database_created a) then (false, s)
  else
    match container_created a with
    | None => (false, MkService (client s) true (documents s))
    | Some docs =>
        let s' := MkService (client s) true (Some docs) in
        if test_written a then (true, s') else (false, s')
    end.

End Cosmos.

(** ** ApiAdapters: the cached token *)

Module Auth.

(** [authToken], [tokenExpiry] (milliseconds since the epoch) and the
    [Authorization] header of [apiClient]; [logins] counts the requests to
    [/api/v1/Auth/login]. *)
Record State : Type := MkState {
  authToken : JsVal;
  tokenExpiry : option Z;
  authorization : option JsVal;
  logins : nat
}.

Definition initial : State := MkState JNull None None 0.

(** [authToken && tokenExpiry && new Date() < tokenExpiry] *)
Definition token_valid (now : Z) (s : State) : bool :=
  truthy (authToken s) &&
  match tokenExpiry s with
  | Some expiry => (now <? expiry)%Z
  | None => false
  end.

Definition hour : Z := (60 * 60 * 1000)%Z.

(** [response.data && response.data.token] is truthy. *)
Definition has_token (data : JsVal) : bool :=
  truthy data && truthy (prop data "token").

(** The assignments both [ensureAuthenticated] and [login] make on a
    response with a token, [later] being the clock after the request. *)
Definition store_token (later : Z) (data : JsVal) (s : State) : State :=
  MkState (prop data "token") (Some (later + hour)%Z) (Some (prop data "token")) (logins s).

Definition requested (s : State) : State :=
  MkState (authToken s) (tokenExpiry s) (authorization s) (S (logins s)).

(** [ensureAuthenticated()], called at [now]; [login] is the outcome of the
    login request if one is made, answered at [later]. *)
Definition ensureAuthenticated (now later : Z) (login : HttpOutcome) (s : State)
  : bool * State :=
  if token_valid now s then (true, s)
  else
    match login with
    | Responded status data =>
        if has_token data
        then (true, store_token later data (requested s))
        else (false, requested s)
    | Rejected status data message => (false, requested s)
    | NoResponse message => (false, requested s)
    end.

(** [login(credentials)]: [response.data], or [Error('Failed to login')]. *)
Definition login (later : Z) (outcome : HttpOutcome) (s : State) : Exc JsVal * State :=
  match outcome with
  | Responded status data =>
      (Ok data,
       if has_token data then store_token later data (requested s) else requested s)
  | Rejected status data message => (Throw (MkError "Failed to login" None), requested s)
  | NoResponse message => (Throw (MkError "Failed to login" None), requested s)
  end.

End Auth.

(** ** The gateway's REST endpoints *)

Module Rest.

Inductive Body : Type :=
| ErrorBody (error : string)
| ChatBody (message : Message) (history : list Message)
| HistoryBody (history : list Message)
| MessageBody (message : string)
| HealthBody (status message : string).

(** [res.status(code).json(body)] *)
Record Response : Type := MkResponse {
  status : Z;
  body : Body
}.

Definition unavailable_text : JsVal :=
  JStr "I'm sorry, I'm not able to process that request right now. Could you try again or rephrase your request?".

(** [app.get('/health', ...)] *)
Definition health : Response :=
  MkResponse 200 (HealthBody "OK" "API Gateway is running").

(** [!userId], for a [userId] that is a string or missing. *)
Definition no_user (uid : option string) : bool :=
  match uid with
  | Some u => String.eqb u ""
  | None => true
  end.

Definition user_of (uid : option string) : string := default "" uid.

(** The [if ... else if] chain of [/api/chat] on [intent.action]. *)
Definition respond (env : Env) (intent : JsVal) : M JsVal :=
  action <- lift (get intent "action") ;;
  if is_str action "CHAT" then ret (prop intent "response")
  else if is_str action "QUERY_FLIGHT" then
    try_catch
      (flights <- searchFlights env (prop intent "parameters") ;;
       generateResponse env PromptSearchResults)
      (fun error =>
         try_catch
           (generateResponse env PromptSearchError)
           (fun innerError => ret search_error_text))
  else if is_str action "BUY_TICKET" then
    try_catch
      (ticketResult <- bookTicket env (prop intent "parameters") ;;
       generateResponse env PromptBookingResult)
      (fun error => ret booking_error_text)
  else if is_str action "CHECK_IN" then
    try_catch
      (checkInResult <- checkIn env (prop intent "parameters") ;;
       generateResponse env PromptCheckInResult)
      (fun error => ret checkin_error_text)
  else ret unavailable_text.

(** [app.post('/api/chat', ...)] on the body [{message, userId}]; [id2] and
    [iso2] are [(Date.now() + 1).toString()] and [new Date().toISOString()]
    read when the assistant's message is built.  The endpoint keeps no
    session: the classifier gets the conversation state [{}]. *)
Definition chat (env : Env) (id2 iso2 : string) (message : JsVal)
    (uid : option string) : M Response :=
  try_catch
    (if negb (truthy message) || no_user uid then
       ret (MkResponse 400 (ErrorBody "Missing required fields"))
     else
       let userMessage :=
         MkMessage (now_ms env) message (now_iso env) "user" (user_of uid) in
       saveMessage env userMessage ;;;
       history <- getConversationHistory env (user_of uid) default_limit ;;
       intent <- detectIntent env JUndefined ;;
       responseContent <- respond env intent ;;
       let assistantMessage :=
         MkMessage id2 responseContent iso2 "bot" (user_of uid) in
       saveMessage env assistantMessage ;;;
       ret (MkResponse 200
              (ChatBody assistantMessage (history ++ [userMessage; assistantMessage]))))
    (fun error => ret (MkResponse 500 (ErrorBody "Internal server error"))).

(** [app.get('/api/history', ...)] *)
Definition get_history (env : Env) (uid : option string) : M Response :=
  try_catch
    (if no_user uid then ret (MkResponse 400 (ErrorBody "Missing userId parameter"))
     else
       history <- getConversationHistory env (user_of uid) default_limit ;;
       ret (MkResponse 200 (HistoryBody history)))
    (fun error => ret (MkResponse 500 (ErrorBody "Internal server error"))).

(** [app.delete('/api/history', ...)] *)
Definition delete_history (env : Env) (uid : option string) : M Response :=
  try_catch
    (if no_user uid then ret (MkResponse 400 (ErrorBody "Missing userId parameter"))
     else
       success <- deleteConversationHistory env (user_of uid) ;;
       if (success : bool)
       then ret (MkResponse 200 (MessageBody "History cleared successfully"))
       else ret (MkResponse 500 (ErrorBody "Failed to clear history")))
    (fun error => ret (MkResponse 500 (ErrorBody "Internal server error"))).

(** A request runs against the store alone; the session of the state is a
    placeholder that no endpoint reads. *)
Definition serve {A} (handler : M A) (store : option (list Message))
  : Exc A * option (list Message) * list Event :=
  let '(result, st) := handler (MkSt (new_session "") store [] 0 0) in
  (result, st_container st, st_trace st).

End Rest.

(** * Vocabulary of the properties *)

(** ** States of a handler *)

(** The state after [saveMessage]. *)
Definition saved (env : Env) (message : Message) (st : St) : St :=
  snd (saveMessage env message st).

(** The three ways the classifier call fails: no client, a failed request,
    a reply that does not parse. *)
Definition classifier_fails (env : Env) : Prop :=
  openai env = false \/
  (exists e, classifier env = RequestFailed e) \/
  classifier env = Replied None.

(** The session after the three assignments of [case 'CONTINUE_FLOW']. *)
Definition continued (intent : JsVal) (s : Session) : Session :=
  set_collectedParams (js_or (prop intent "collectedParams") empty_object)
    (set_currentStep (prop intent "nextStep")
       (set_activeFlow (prop intent "flow") s)).

(** The session after the three assignments of a [START_*_FLOW] case. *)
Definition started (kind : FlowKind) (intent : JsVal) (s : Session) : Session :=
  set_collectedParams (js_or (prop intent "parameters") empty_object)
    (set_currentStep (JNum 1)
       (set_activeFlow (JStr (flow_name kind)) s)).

(** The session after [// Reset flow]. *)
Definition reset (s : Session) : Session :=
  set_currentStep JNull (set_activeFlow JNull s).

(** The [action] that starts the flow of each kind. *)
Definition start_action (kind : FlowKind) : string :=
  match kind with
  | QUERY_FLIGHT => "START_QUERY_FLOW"
  | BUY_TICKET => "START_BUY_FLOW"
  | CHECK_IN => "START_CHECKIN_FLOW"
  end.

Definition start_prompt (kind : FlowKind) : Prompt :=
  match kind with
  | QUERY_FLIGHT => PromptStartQuery
  | BUY_TICKET => PromptStartBuy
  | CHECK_IN => PromptStartCheckIn
  end.

Definition result_prompt (kind : FlowKind) : Prompt :=
  match kind with
  | QUERY_FLIGHT => PromptFlowSearchResults
  | BUY_TICKET => PromptFlowBookingResult
  | CHECK_IN => PromptFlowCheckInResult
  end.

(** The state in which a completion calls its adapter. *)
Definition called (kind : FlowKind) (st : St) : St :=
  logged (Adapter kind (collectedParams (st_session st))) st.

(** Every way the [switch] can leave the state, for an intent whose
    [action] can be read. *)
Inductive Turn (intent : JsVal) (st : St) : St -> Prop :=
| TurnChat :
    Turn intent st st
| TurnSingleShot kind p :
    Turn intent st (generated p (logged (Adapter kind (prop intent "parameters")) st))
| TurnStart kind :
    Turn intent st (generated (start_prompt kind) (with_session (started kind intent) st))
| TurnStep :
    is_str (prop intent "action") "CONTINUE_FLOW" = true ->
    Turn intent st (generated PromptFlowStep (with_session (continued intent) st))
| TurnNoSuchFlow :
    is_str (prop intent "action") "CONTINUE_FLOW" = true ->
    flow_case (prop intent "flow") = None ->
    Turn intent st (with_session (continued intent) st)
| TurnCompleted kind :
    is_str (prop intent "action") "CONTINUE_FLOW" = true ->
    flow_case (prop intent "flow") = Some kind ->
    Turn intent st
      (with_session reset
         (generated (result_prompt kind)
            (called kind (with_session (continued intent) st))))
| TurnSearchFailed :
    is_str (prop intent "action") "CONTINUE_FLOW" = true ->
    flow_case (prop intent "flow") = Some QUERY_FLIGHT ->
    Turn intent st
      (generated PromptFlowSearchError
         (called QUERY_FLIGHT (with_session (continued intent) st))).

(** The state in which the classifier is asked: the user's message is
    saved and pushed. *)
Definition received (env : Env) (message : Message) (st : St) : St :=
  with_session (push_history message) (saved env message st).

(** The state the handler ends in once the [switch] has left [st] with
    [content] to send. *)
Definition answered (env : Env) (uid : string) (content : JsVal) (st : St) : St :=
  let assistantMessage := assistant_message env uid content in
  saved env assistantMessage
    (with_session (push_history assistantMessage)
       (logged (EmitMessage assistantMessage) st)).

(** The state the handler ends in through its outer [catch]. *)
Definition apologised (env : Env) (st : St) : St :=
  logged (EmitMessage (assistant_message env (userId (st_session st))
                         processing_error_text)) st.

(** Whether the adapter of a flow kind returns to the handler: [bookTicket]
    and [checkIn] always do, [searchFlights] only with the backend's
    response. *)
Definition adapter_returns (env : Env) (kind : FlowKind) : bool :=
  match kind, http env with
  | QUERY_FLIGHT, Responded _ _ => true
  | QUERY_FLIGHT, _ => false
  | _, _ => true
  end.

(** The parameters a flow intent carries: [parameters] for the START_*
    intents, [collectedParams] for CONTINUE_FLOW. *)
Definition carried_params (intent : JsVal) : JsVal :=
  if is_str (prop intent "action") "CONTINUE_FLOW"
  then prop intent "collectedParams"
  else prop intent "parameters".

Definition flow_intent (intent : JsVal) : Prop :=
  is_str (prop intent "action") "CONTINUE_FLOW" = true \/
  exists kind, is_str (prop intent "action") (start_action kind) = true.





(** The documents of one user, in the order they were created. *)
Definition stored_for (uid : string) (docs : list Message) : list Message :=
  filter (λ c, msg_userId c = uid) docs.

(** [null] and nothing else. *)
Definition is_null (v : JsVal) : bool :=
  match v with
  | JNull => true
  | _ => false
  end.

(** [null] or [undefined]. *)
Definition is_nullish (v : JsVal) : bool :=
  match v with
  | JNull | JUndefined => true
  | _ => false
  end.


(** [activeFlow = NONE <-> currentStep = null], for a reading [is_none] of
    "is NONE" and "is null": strictly [null] ([is_null]), [null] and
    [undefined] alike ([is_nullish]), or any other. *)
Definition flow_invariant (is_none : JsVal -> bool) (s : Session) : Prop :=
  is_none (activeFlow s) = is_none (currentStep s).

(** The classifier's CONTINUE_FLOW intents have [flow] and [nextStep]
    both set or both null. *)
Definition coherent (is_none : JsVal -> bool) (env : Env) : Prop :=
  forall intent,
    classifier env = Replied (Some intent) ->
    is_str (prop intent "action") "CONTINUE_FLOW" = true ->
    is_none (prop intent "flow") = is_none (prop intent "nextStep").

(** The worlds the server can be in when every classifier reply on the
    way was coherent. *)
Inductive reachable (is_none : JsVal -> bool) : World -> Prop :=
| reachable_boot c : reachable is_none (boot c)
| reachable_step env i w :
    reachable is_none w -> coherent is_none env ->
    reachable is_none (fst (step env i w)).

(** ** The services and the endpoints *)

(** What [identify] gets from the store for a user. *)
Definition hydrated (env : Env) (uid : string) (w : World) : list Message :=
  match container w with
  | Some docs =>
      if db env 0 then reverse (query_recent uid default_limit docs) else []
  | None => []
  end.

(** Two states that differ at most in the store and in the count of its
    requests. *)
Definition same_talk (st st' : St) : Prop :=
  st_session st = st_session st' /\
  st_trace st = st_trace st' /\
  st_generated st = st_generated st'.

(** Two computations that return the same and keep states alike. *)
Definition alike {A} (m m' : M A) : Prop :=
  forall st st', same_talk st st' ->
    fst (m st) = fst (m' st') /\ same_talk (snd (m st)) (snd (m' st')).

(** The same environment with other answers from Cosmos DB. *)
Definition with_db (d : nat -> bool) (env : Env) : Env :=
  MkEnv (now_ms env) (now_iso env) (openai env) (classifier env) (composer env)
        (auth env) (http env) d.

(** The envelope for each outcome of the partner's endpoint. *)
Definition outcome_envelope (o : HttpOutcome) : ActionResult :=
  match o with
  | Responded status data => Succeeded data status
  | Rejected status data message => ApiError status data
  | NoResponse message => Failed message
  end.

(** [a] is not later than [b]. *)
Definition not_after (a b : Message) : Prop :=
  String.ltb (msg_timestamp b) (msg_timestamp a) = false.

(** The intent [/api/chat] works on: without a flow in the conversation
    state the parsed reply is never inspected. *)
Definition stateless_intent (env : Env) : JsVal :=
  if openai env then
    match classifier env with
    | Replied (Some parsed) => parsed
    | _ => fallback_intent
    end
  else fallback_intent.

(** The cached token is either still unset, or a truthy token with its
    expiry that the [Authorization] header carries. *)
Definition token_coherent (s : Auth.State) : Prop :=
  (Auth.authToken s = JNull /\ Auth.tokenExpiry s = None /\ Auth.authorization s = None) \/
  (truthy (Auth.authToken s) = true /\ is_Some (Auth.tokenExpiry s) /\
   Auth.authorization s = Some (Auth.authToken s)).

(** The calls that touch the cached token. *)
Inductive AuthCall : Type :=
| EnsureAuthenticated (now later : Z) (outcome : HttpOutcome)
| Login (later : Z) (outcome : HttpOutcome).

Definition auth_call (s : Auth.State) (c : AuthCall) : Auth.State :=
  match c with
  | EnsureAuthenticated now later outcome =>
      snd (Auth.ensureAuthenticated now later outcome s)
  | Login later outcome => snd (Auth.login later outcome s)
  end.

(** The token state after a sequence of calls on a fresh module. *)
Definition auth_after (calls : list AuthCall) : Auth.State :=
  foldl auth_call Auth.initial calls.

(** What the login endpoint answers to a call, if the call asks. *)
Definition call_outcome (c : AuthCall) : HttpOutcome :=
  match c with
  | EnsureAuthenticated now later outcome => outcome
  | Login later outcome => outcome
  end.

(** Token, expiry and header are the same in both states. *)
Definition same_token (s s' : Auth.State) : Prop :=
  Auth.authToken s' = Auth.authToken s /\
  Auth.tokenExpiry s' = Auth.tokenExpiry s /\
  Auth.authorization s' = Auth.authorization s.

(** ** Sample inputs *)

Module Sample.

(** An environment in which the classifier's completion is [c], the
    partner endpoint answers [h], every composed reply is ["ok"], and
    every store request succeeds, at clock reading [t]. *)
Definition env (c : Completion) (h : HttpOutcome) (t : string) : Env :=
  MkEnv t t true c (fun _ => Some (JStr "ok")) true h (fun _ => true).

Definition said (t : string) (text : string) : Message :=
  MkMessage t (JStr text) t "user" "u1".

(** A session of user [u1] on socket [s1], as [identify] leaves it when
    the store is not initialised. *)
Definition session : Session :=
  MkSession "u1" JNull JNull empty_object
    [assistant_message (env (Replied None) (NoResponse "") "2024-05-01T10:00:00.000Z")
       "u1" welcome_text].

Definition world : World := MkWorld {["s1" := session]} None.

Definition ticket : JsVal :=
  JObj [("flightNumber", JStr "FL3940"); ("flightDate", JStr "2024-05-01");
        ("passengerNames", JArr [JStr "John Doe"])].

Definition start_buy : JsVal :=
  JObj [("action", JStr "START_BUY_FLOW");
        ("parameters", JObj [("flightNumber", JStr "FL3940")])].


Definition complete (flow : JsVal) (params : JsVal) : JsVal :=
  JObj [("action", JStr "CONTINUE_FLOW"); ("flow", flow); ("nextStep", JNum 2);
        ("collectedParams", params); ("isFlowComplete", JBool true)].

Definition refund : JsVal :=
  JObj [("action", JStr "REFUND"); ("response", JStr "Refunds are handled at the desk.")].

End Sample.

Module Reopen.

(** User [u1] was welcomed, said hello and was answered, all of it
    stored. *)
Definition history : list Message :=
  [MkMessage "2024-05-01T10:00:00.000Z" welcome_text
     "2024-05-01T10:00:00.000Z" "assistant" "u1";
   MkMessage "2024-05-01T10:00:59.000Z" (JStr "hello")
     "2024-05-01T10:00:59.000Z" "user" "u1";
   MkMessage "2024-05-01T10:01:00.000Z" (JStr "Hello!")
     "2024-05-01T10:01:00.000Z" "assistant" "u1"].

Definition session : Session := MkSession "u1" JNull JNull empty_object history.

Definition world : World := MkWorld {["s1" := session]} (Some history).

Definition inputs : list (Env * Input) :=
  [(Sample.env (Replied None) (NoResponse "") "2024-05-01T10:00:00.000Z",
    Identify "s1" "u1");
   (Sample.env
      (Replied (Some (JObj [("action", JStr "CHAT"); ("response", JStr "Hello!")])))
      (NoResponse "") "2024-05-01T10:01:00.000Z",
    Incoming "s1" (Sample.said "2024-05-01T10:00:59.000Z" "hello"))].

End Reopen.

(** * Properties *)

(** ** Values *)

Lemma truthy_get (v : JsVal) (k : string) :
  truthy v = true -> get v k = Ok (prop v k).
Proof. destruct v; simpl; intros H; try reflexivity; discriminate H. Qed.

Lemma js_or_truthy (a b : JsVal) : truthy b = true -> truthy (js_or a b) = true.
Proof. intros Hb. unfold js_or. destruct (truthy a) eqn:Ha; assumption. Qed.

Lemma is_str_eq (v : JsVal) (lit : string) : is_str v lit = true <-> v = JStr lit.
Proof.
  split.
  - destruct v; simpl; try discriminate. intros H.
    apply String.eqb_eq in H. now subst.
  - intros ->. simpl. apply String.eqb_refl.
Qed.

Lemma get_action_object (intent : JsVal) (name : string) :
  is_str (prop intent "action") name = true -> get intent "action" = Ok (JStr name).
Proof.
  intros H. apply is_str_eq in H.
  destruct intent; simpl in *; try discriminate; now rewrite H.
Qed.

Lemma flow_case_name (k : FlowKind) : flow_case (JStr (flow_name k)) = Some k.
Proof. destruct k; reflexivity. Qed.

Lemma flow_case_some (flow : JsVal) (k : FlowKind) :
  flow_case flow = Some k <-> flow = JStr (flow_name k).
Proof.
  split.
  - unfold flow_case.
    destruct (is_str flow "QUERY_FLIGHT") eqn:E1;
      [ apply is_str_eq in E1; intros [= <-]; exact E1 |].
    destruct (is_str flow "BUY_TICKET") eqn:E2;
      [ apply is_str_eq in E2; intros [= <-]; exact E2 |].
    destruct (is_str flow "CHECK_IN") eqn:E3;
      [ apply is_str_eq in E3; intros [= <-]; exact E3 |].
    discriminate.
  - intros ->. apply flow_case_name.
Qed.

Lemma flow_case_none (flow : JsVal) :
  flow_case flow = None <-> forall k, flow <> JStr (flow_name k).
Proof.
  split.
  - intros Hn k Hk. apply flow_case_some in Hk. congruence.
  - intros Hall. destruct (flow_case flow) as [k|] eqn:E; [|reflexivity].
    apply flow_case_some in E. now apply Hall in E.
Qed.

(** ** The services *)

Lemma saveMessage_returns env message st :
  exists item, saveMessage env message st = (Ok item, saved env message st).
Proof.
  unfold saved, saveMessage.
  destruct (st_container st); [destruct (db env (st_requests st))|]; eauto.
Qed.

Lemma saved_session env message st : st_session (saved env message st) = st_session st.
Proof.
  unfold saved, saveMessage.
  destruct (st_container st); [destruct (db env (st_requests st))|]; reflexivity.
Qed.

Lemma saved_trace env message st : st_trace (saved env message st) = st_trace st.
Proof.
  unfold saved, saveMessage.
  destruct (st_container st); [destruct (db env (st_requests st))|]; reflexivity.
Qed.

(** [detectIntent] always resolves, and leaves the state alone. *)
Lemma detectIntent_returns env af st :
  exists intent, detectIntent env af st = (Ok intent, st).
Proof.
  unfold detectIntent, try_catch, throw, ret, bind, lift.
  destruct (openai env); simpl; [|eauto].
  destruct (classifier env) as [e|[parsed|]]; simpl; eauto.
  destruct (truthy af); simpl; eauto.
  destruct (get parsed "action"); simpl; eauto.
  destruct (is_str a "CONTINUE_FLOW"); simpl; eauto.
Qed.

(** A parsed reply that is not [null] is returned as it is. *)
Lemma detectIntent_parsed env af st intent action :
  openai env = true ->
  classifier env = Replied (Some intent) ->
  get intent "action" = Ok action ->
  detectIntent env af st = (Ok intent, st).
Proof.
  intros Hc Hr Ha.
  unfold detectIntent, try_catch, throw, ret, bind, lift, processFlowStep.
  rewrite Hc, Hr. simpl.
  destruct (truthy af); simpl; [|reflexivity].
  rewrite Ha. destruct (is_str action "CONTINUE_FLOW"); reflexivity.
Qed.

Lemma detectIntent_fallback env af st :
  classifier_fails env -> detectIntent env af st = (Ok fallback_intent, st).
Proof.
  unfold detectIntent, try_catch, throw, ret, bind, lift.
  intros [Hc | [[e He] | Hp]].
  - now rewrite Hc.
  - rewrite He. now destruct (openai env).
  - rewrite Hp. now destruct (openai env).
Qed.

Lemma searchFlights_state env params st :
  snd (searchFlights env params st) = logged (Adapter QUERY_FLIGHT params) st.
Proof.
  unfold searchFlights, request, try_catch, throw, ret, bind, lift, log.
  destruct params; simpl; try reflexivity; destruct (http env); reflexivity.
Qed.

Lemma searchFlights_responded env params st status data :
  truthy params = true ->
  http env = Responded status data ->
  searchFlights env params st = (Ok data, logged (Adapter QUERY_FLIGHT params) st).
Proof.
  intros Ht Hh.
  unfold searchFlights, request, try_catch, throw, ret, bind, lift, log.
  rewrite !(truthy_get _ _ Ht), Hh. reflexivity.
Qed.

Lemma searchFlights_throws env params st :
  (forall status data, http env <> Responded status data) ->
  exists e, searchFlights env params st
            = (Throw e, logged (Adapter QUERY_FLIGHT params) st).
Proof.
  intros Hh.
  unfold searchFlights, request, try_catch, throw, ret, bind, lift, log.
  destruct params; simpl; eauto; destruct (http env) eqn:E; simpl; eauto;
    now destruct (Hh status data).
Qed.

(** [bookTicket] and [checkIn] turn every failure into a returned envelope. *)
Lemma bookTicket_returns env ticketData st :
  exists result, bookTicket env ticketData st
                 = (Ok result, logged (Adapter BUY_TICKET ticketData) st).
Proof.
  unfold bookTicket, ensureAuthenticated, request, try_catch, throw, ret, bind, lift, log.
  destruct ticketData; simpl; eauto; destruct (http env); simpl; eauto.
Qed.

Lemma checkIn_returns env checkInData st :
  exists result, checkIn env checkInData st
                 = (Ok result, logged (Adapter CHECK_IN checkInData) st).
Proof.
  unfold checkIn, ensureAuthenticated, request, try_catch, throw, ret, bind, lift, log.
  destruct (http env); simpl; eauto.
Qed.

(** ** The [switch] of the message handler *)

Ltac run_monad :=
  unfold try_catch, throw, ret, bind, lift, log, update_session,
    read_session, generateResponse, reset_flow in *.

(** The adapter returned to the handler: the reply is composed and the
    flow is reset. *)
Lemma complete_flow_returned env kind st :
  kind <> QUERY_FLIGHT \/
  (truthy (collectedParams (st_session st)) = true /\
   exists status data, http env = Responded status data) ->
  complete_flow env kind st
  = (Ok (composed env (st_generated st)),
     with_session reset (generated (result_prompt kind) (called kind st))).
Proof.
  intros H. destruct kind; unfold complete_flow, called.
  - destruct H as [H | [Ht (status & data & Hh)]]; [congruence|].
    run_monad. rewrite (searchFlights_responded _ _ _ _ _ Ht Hh). reflexivity.
  - run_monad.
    destruct (bookTicket_returns env (collectedParams (st_session st)) st) as [r ->].
    reflexivity.
  - run_monad.
    destruct (checkIn_returns env (collectedParams (st_session st)) st) as [r ->].
    reflexivity.
Qed.

(** The search adapter threw: an apology is composed and the flow stays as
    the intent set it. *)
Lemma complete_flow_search_failed env st :
  (forall status data, http env <> Responded status data) ->
  complete_flow env QUERY_FLIGHT st
  = (Ok (composed env (st_generated st)),
     generated PromptFlowSearchError (called QUERY_FLIGHT st)).
Proof.
  intros Hh. unfold complete_flow, called. run_monad.
  destruct (searchFlights_throws env (collectedParams (st_session st)) st Hh) as [e ->].
  reflexivity.
Qed.

Lemma continue_flow_incomplete env intent st :
  truthy (prop intent "isFlowComplete") = false ->
  continue_flow env intent st
  = (Ok (composed env (st_generated st)),
     generated PromptFlowStep (with_session (continued intent) st)).
Proof. intros Hc. unfold continue_flow. run_monad. rewrite Hc. reflexivity. Qed.

Lemma continue_flow_complete env intent st kind :
  truthy (prop intent "isFlowComplete") = true ->
  flow_case (prop intent "flow") = Some kind ->
  continue_flow env intent st
  = complete_flow env kind (with_session (continued intent) st).
Proof.
  intros Hc Hk. unfold continue_flow. run_monad. rewrite Hc, Hk. reflexivity.
Qed.

Lemma continue_flow_unknown env intent st :
  truthy (prop intent "isFlowComplete") = true ->
  flow_case (prop intent "flow") = None ->
  continue_flow env intent st
  = (Ok (JStr ""), with_session (continued intent) st).
Proof.
  intros Hc Hk. unfold continue_flow. run_monad. rewrite Hc, Hk. reflexivity.
Qed.

Lemma respond_continue env intent st :
  is_str (prop intent "action") "CONTINUE_FLOW" = true ->
  respond env intent st = continue_flow env intent st.
Proof.
  intros Ha. unfold respond, bind, lift.
  rewrite (get_action_object _ _ Ha). reflexivity.
Qed.

Lemma respond_start env intent st kind :
  is_str (prop intent "action") (start_action kind) = true ->
  respond env intent st
  = (Ok (composed env (st_generated st)),
     generated (start_prompt kind) (with_session (started kind intent) st)).
Proof.
  intros Ha. unfold respond, bind, lift.
  rewrite (get_action_object _ _ Ha). destruct kind; reflexivity.
Qed.

Lemma respond_chat env intent st action :
  get intent "action" = Ok action ->
  action_case action = CaseChat \/ action_case action = CaseDefault ->
  respond env intent st = (Ok (js_or (prop intent "response") rephrase_text), st).
Proof.
  intros Ha Hc. unfold respond, bind, lift. rewrite Ha.
  destruct Hc as [-> | ->]; reflexivity.
Qed.

Lemma respond_null env intent st e :
  get intent "action" = Throw e -> respond env intent st = (Throw e, st).
Proof. intros Ha. unfold respond, bind, lift. now rewrite Ha. Qed.

Lemma complete_flow_turn env intent st kind :
  is_str (prop intent "action") "CONTINUE_FLOW" = true ->
  flow_case (prop intent "flow") = Some kind ->
  exists content st',
    complete_flow env kind (with_session (continued intent) st) = (Ok content, st')
    /\ Turn intent st st'.
Proof.
  intros Ha Hk.
  set (st1 := with_session (continued intent) st).
  assert (Ht : truthy (collectedParams (st_session st1)) = true)
    by (apply js_or_truthy; reflexivity).
  destruct kind.
  - destruct (http env) as [status data | status data msg | msg] eqn:Hh.
    + rewrite complete_flow_returned by (right; eauto).
      do 2 eexists; split; [reflexivity | now apply TurnCompleted].
    + rewrite complete_flow_search_failed by (rewrite Hh; discriminate).
      do 2 eexists; split; [reflexivity | now apply TurnSearchFailed].
    + rewrite complete_flow_search_failed by (rewrite Hh; discriminate).
      do 2 eexists; split; [reflexivity | now apply TurnSearchFailed].
  - rewrite complete_flow_returned by (left; discriminate).
    do 2 eexists; split; [reflexivity | now apply TurnCompleted].
  - rewrite complete_flow_returned by (left; discriminate).
    do 2 eexists; split; [reflexivity | now apply TurnCompleted].
Qed.

Lemma continue_flow_turn env intent st :
  is_str (prop intent "action") "CONTINUE_FLOW" = true ->
  exists content st', continue_flow env intent st = (Ok content, st') /\ Turn intent st st'.
Proof.
  intros Ha.
  destruct (truthy (prop intent "isFlowComplete")) eqn:Hc.
  - destruct (flow_case (prop intent "flow")) as [kind|] eqn:Hk.
    + rewrite (continue_flow_complete _ _ _ _ Hc Hk). now apply complete_flow_turn.
    + rewrite (continue_flow_unknown _ _ _ Hc Hk).
      do 2 eexists; split; [reflexivity | now apply TurnNoSuchFlow].
  - rewrite (continue_flow_incomplete _ _ _ Hc).
    do 2 eexists; split; [reflexivity | now apply TurnStep].
Qed.

Lemma get_prop (o : JsVal) (k : string) (v : JsVal) : get o k = Ok v -> v = prop o k.
Proof. destruct o; simpl; congruence. Qed.

Lemma action_case_continue (action : JsVal) :
  action_case action = CaseContinueFlow -> is_str action "CONTINUE_FLOW" = true.
Proof.
  unfold action_case.
  repeat match goal with
         | |- context [if ?b then _ else _] => destruct b eqn:?; try discriminate
         end.
  reflexivity.
Qed.

(** With a readable [action] the [switch] never throws, and it leaves the
    state in one of the seven ways. *)
Lemma respond_turn env intent st action :
  get intent "action" = Ok action ->
  exists content st', respond env intent st = (Ok content, st') /\ Turn intent st st'.
Proof.
  intros Ha. unfold respond, bind at 1, lift. rewrite Ha.
  destruct (action_case action) eqn:Hcase.
  - unfold try_catch, bind.
    destruct (searchFlights env (prop intent "parameters") st) as [[flights|e] st1] eqn:Hs;
      pose proof (searchFlights_state env (prop intent "parameters") st) as Hst;
      rewrite Hs in Hst; simpl in Hst; subst st1;
      do 2 eexists; (split; [reflexivity | apply TurnSingleShot]).
  - unfold try_catch, bind.
    destruct (bookTicket_returns env (prop intent "parameters") st) as [r ->].
    do 2 eexists; (split; [reflexivity | apply TurnSingleShot]).
  - unfold try_catch, bind.
    destruct (checkIn_returns env (prop intent "parameters") st) as [r ->].
    do 2 eexists; (split; [reflexivity | apply TurnSingleShot]).
  - do 2 eexists; split; [| apply (TurnStart _ _ QUERY_FLIGHT)]; reflexivity.
  - do 2 eexists; split; [| apply (TurnStart _ _ BUY_TICKET)]; reflexivity.
  - do 2 eexists; split; [| apply (TurnStart _ _ CHECK_IN)]; reflexivity.
  - apply continue_flow_turn.
    apply action_case_continue in Hcase. now rewrite <- (get_prop _ _ _ Ha).
  - do 2 eexists; split; [reflexivity | apply TurnChat].
  - do 2 eexists; split; [reflexivity | apply TurnChat].
Qed.

(** ** The message handler *)

Lemma received_session env message st :
  st_session (received env message st) = push_history message (st_session st).
Proof. unfold received. simpl. now rewrite saved_session. Qed.

Lemma received_trace env message st :
  st_trace (received env message st) = st_trace st.
Proof. unfold received. simpl. now rewrite saved_trace. Qed.

Lemma answered_session env uid content st :
  st_session (answered env uid content st)
  = push_history (assistant_message env uid content) (st_session st).
Proof. unfold answered. now rewrite saved_session. Qed.

Lemma answered_trace env uid content st :
  st_trace (answered env uid content st)
  = st_trace st ++ [EmitMessage (assistant_message env uid content)].
Proof. unfold answered. now rewrite saved_trace. Qed.

Lemma message_body_answered env message st intent content st2 :
  let st1 := received env message st in
  detectIntent env (activeFlow (st_session st1)) st1 = (Ok intent, st1) ->
  respond env intent st1 = (Ok content, st2) ->
  message_body env message st
  = (Ok tt, answered env (userId (st_session st1)) content st2).
Proof.
  intros st1 Hd Hr. unfold message_body.
  unfold try_catch at 1 2, bind at 1 2 3 4 5, update_session at 1, read_session, ret.
  destruct (saveMessage_returns env message st) as [item ->].
  fold (received env message st). fold st1.
  rewrite Hd, Hr. unfold answered, try_catch, bind, log, update_session, ret.
  set (m := assistant_message env (userId (st_session st1)) content).
  set (st3 := with_session (push_history m) (logged (EmitMessage m) st2)).
  now destruct (saveMessage_returns env m st3) as [item' ->].
Qed.

Lemma message_body_apologised env message st intent e st2 :
  let st1 := received env message st in
  detectIntent env (activeFlow (st_session st1)) st1 = (Ok intent, st1) ->
  respond env intent st1 = (Throw e, st2) ->
  message_body env message st = (Ok tt, apologised env st2).
Proof.
  intros st1 Hd Hr. unfold message_body.
  unfold try_catch at 1 2, bind at 1 2 3 4 5, update_session at 1, read_session, ret.
  destruct (saveMessage_returns env message st) as [item ->].
  fold (received env message st). fold st1.
  now rewrite Hd, Hr.
Qed.


Lemma finish_lookup sid w st :
  userSessions (fst (finish sid w st)) !! sid = Some (st_session st).
Proof. unfold finish. simpl. apply lookup_insert_eq. Qed.

Lemma finish_events sid w st : snd (finish sid w st) = st_trace st.
Proof. reflexivity. Qed.

(** The handler on an intent the classifier delivered. *)
Lemma on_message_answered env sid message w s intent action content st2 :
  userSessions w !! sid = Some s ->
  openai env = true ->
  classifier env = Replied (Some intent) ->
  get intent "action" = Ok action ->
  respond env intent (received env message (start s w)) = (Ok content, st2) ->
  on_message env sid message w = finish sid w (answered env (userId s) content st2).
Proof.
  intros Hs Hc Hr Ha Hres. unfold on_message. rewrite Hs.
  erewrite message_body_answered; [| eapply detectIntent_parsed; eassumption | exact Hres].
  now rewrite received_session.
Qed.

(** Reads the session and the events off a finished handler. *)
Ltac observe :=
  rewrite ?finish_lookup, ?finish_events, ?answered_session, ?answered_trace;
  eexists; split; [reflexivity|];
  simpl; rewrite ?saved_trace, ?saved_session; simpl.

(** ** Flow transitions *)



(** C6: START_QUERY_FLOW, START_BUY_FLOW and START_CHECKIN_FLOW set
    activeFlow to the strings QUERY_FLIGHT, BUY_TICKET and CHECK_IN,
    currentStep to 1 and collectedParams to intent.parameters, or to the
    empty object when that is absent, and call no adapter. *)
Theorem start_flow_sets_state env sid message w s intent kind :
  userSessions w !! sid = Some s ->
  openai env = true ->
  classifier env = Replied (Some intent) ->
  is_str (prop intent "action")
    match kind with
    | QUERY_FLIGHT => "START_QUERY_FLOW"
    | BUY_TICKET => "START_BUY_FLOW"
    | CHECK_IN => "START_CHECKIN_FLOW"
    end = true ->
  exists s',
    userSessions (fst (on_message env sid message w)) !! sid = Some s' /\
    activeFlow s' = match kind with
                    | QUERY_FLIGHT => JStr "QUERY_FLIGHT"
                    | BUY_TICKET => JStr "BUY_TICKET"
                    | CHECK_IN => JStr "CHECK_IN"
                    end /\
    currentStep s' = JNum 1 /\
    collectedParams s' = js_or (prop intent "parameters") empty_object /\
    (prop intent "parameters" = JUndefined -> collectedParams s' = empty_object) /\
    (forall fs, prop intent "parameters" = JObj fs -> collectedParams s' = JObj fs) /\
    adapter_calls (snd (on_message env sid message w)) = [].
Proof.
  intros Hs Hc Hr Ha.
  assert (Hstart : is_str (prop intent "action") (start_action kind) = true)
    by (destruct kind; exact Ha).
  erewrite on_message_answered;
    [ | eassumption | assumption | eassumption | exact (get_action_object _ _ Hstart)
      | apply (respond_start _ _ _ _ Hstart) ].
  observe.
  repeat split.
  - destruct kind; reflexivity.
  - now intros ->.
  - now intros fs ->.
Qed.

Lemma start_flow_sets_state_witness :
  (exists s',
     userSessions (fst (on_message
                          (Sample.env
                             (Replied (Some (JObj [("action", JStr "START_QUERY_FLOW")])))
                             (NoResponse "") "2024-05-01T10:01:00.000Z")
                          "s1" (Sample.said "2024-05-01T10:00:59.000Z" "find me a flight")
                          Sample.world)) !! "s1" = Some s' /\
     activeFlow s' = JStr "QUERY_FLIGHT" /\
     currentStep s' = JNum 1 /\
     collectedParams s' = JObj []) /\
  (exists s',
     userSessions (fst (on_message
                          (Sample.env (Replied (Some Sample.start_buy)) (NoResponse "")
                             "2024-05-01T10:01:00.000Z")
                          "s1" (Sample.said "2024-05-01T10:00:59.000Z" "book FL3940")
                          Sample.world)) !! "s1" = Some s' /\
     activeFlow s' = JStr "BUY_TICKET" /\
     currentStep s' = JNum 1 /\
     collectedParams s' = JObj [("flightNumber", JStr "FL3940")]) /\
  (exists s',
     userSessions (fst (on_message
                          (Sample.env
                             (Replied (Some (JObj [("action", JStr "START_CHECKIN_FLOW");
                                                   ("parameters",
                                                    JObj [("flightNumber", JStr "FL3940")])])))
                             (NoResponse "") "2024-05-01T10:01:00.000Z")
                          "s1" (Sample.said "2024-05-01T10:00:59.000Z" "check me in")
                          Sample.world)) !! "s1" = Some s' /\
     activeFlow s' = JStr "CHECK_IN" /\
     currentStep s' = JNum 1 /\
     collectedParams s' = JObj [("flightNumber", JStr "FL3940")]).
Proof.
  split; [|split].
  - destruct (start_flow_sets_state
                (Sample.env (Replied (Some (JObj [("action", JStr "START_QUERY_FLOW")])))
                   (NoResponse "") "2024-05-01T10:01:00.000Z")
                "s1" (Sample.said "2024-05-01T10:00:59.000Z" "find me a flight")
                Sample.world Sample.session (JObj [("action", JStr "START_QUERY_FLOW")])
                QUERY_FLIGHT)
      as (s' & Hs & Hf & Hn & _ & Hp & _).
    + reflexivity.
    + reflexivity.
    + reflexivity.
    + reflexivity.
    + exists s'. repeat split; [exact Hs | exact Hf | exact Hn | now apply Hp].
  - destruct (start_flow_sets_state
                (Sample.env (Replied (Some Sample.start_buy)) (NoResponse "")
                   "2024-05-01T10:01:00.000Z")
                "s1" (Sample.said "2024-05-01T10:00:59.000Z" "book FL3940")
                Sample.world Sample.session Sample.start_buy BUY_TICKET)
      as (s' & Hs & Hf & Hn & Hp & _).
    + reflexivity.
    + reflexivity.
    + reflexivity.
    + reflexivity.
    + exists s'. repeat split; assumption.
  - destruct (start_flow_sets_state
                (Sample.env
                   (Replied (Some (JObj [("action", JStr "START_CHECKIN_FLOW");
                                         ("parameters",
                                          JObj [("flightNumber", JStr "FL3940")])])))
                   (NoResponse "") "2024-05-01T10:01:00.000Z")
                "s1" (Sample.said "2024-05-01T10:00:59.000Z" "check me in")
                Sample.world Sample.session
                (JObj [("action", JStr "START_CHECKIN_FLOW");
                       ("parameters", JObj [("flightNumber", JStr "FL3940")])])
                CHECK_IN)
      as (s' & Hs & Hf & Hn & Hp & _).
    + reflexivity.
    + reflexivity.
    + reflexivity.
    + reflexivity.
    + exists s'. repeat split; assumption.
Defined.

(** ** Every message, whatever the classifier says *)

(** An intent that reaches the [switch] is the fallback or the parsed
    reply. *)
Lemma detectIntent_origin env af st intent st' :
  detectIntent env af st = (Ok intent, st') ->
  intent = fallback_intent \/ classifier env = Replied (Some intent).
Proof.
  unfold detectIntent, try_catch, throw, ret, bind, lift, processFlowStep.
  destruct (openai env); simpl; [| intros [= <- _]; now left].
  destruct (classifier env) as [e|[parsed|]]; simpl;
    [ intros [= <- _]; now left | | intros [= <- _]; now left ].
  destruct (truthy af); simpl; [| intros [= <- _]; now right].
  destruct (get parsed "action"); simpl; [| intros [= <- _]; now left].
  destruct (is_str a "CONTINUE_FLOW"); simpl; intros [= <- _]; now right.
Qed.

(** The handler either answers after one [Turn] of the [switch], or
    apologises through its outer [catch] with the session as the user's
    message left it. *)
Lemma on_message_turn env sid message w s :
  userSessions w !! sid = Some s ->
  let st1 := received env message (start s w) in
  (exists intent content st2,
      (intent = fallback_intent \/ classifier env = Replied (Some intent)) /\
      Turn intent st1 st2 /\
      on_message env sid message w = finish sid w (answered env (userId s) content st2))
  \/ on_message env sid message w = finish sid w (apologised env st1).
Proof.
  intros Hs st1. unfold on_message. rewrite Hs.
  destruct (detectIntent_returns env (activeFlow (st_session st1)) st1) as [intent Hd].
  destruct (get intent "action") as [action|e] eqn:Ha.
  - destruct (respond_turn env intent st1 action Ha) as (content & st2 & Hr & Ht).
    left. exists intent, content, st2. split; [|split; [exact Ht|]].
    + eapply detectIntent_origin; eassumption.
    + rewrite (message_body_answered env message (start s w) intent content st2 Hd Hr).
      fold st1. unfold st1 at 1. now rewrite received_session.
  - right.
    now rewrite (message_body_apologised env message (start s w) intent e st1 Hd
                   (respond_null env intent st1 e Ha)).
Qed.

(** A [Turn] appends events to the trace, at most one of them an adapter
    call. *)
Lemma Turn_calls intent st st' :
  Turn intent st st' ->
  exists events,
    st_trace st' = st_trace st ++ events /\ length (adapter_calls events) <= 1.
Proof.
  intros [ | kind p | kind | Ha | Ha Hk | kind Ha Hk | Ha Hk ]; simpl;
    rewrite <- ?app_assoc; simpl.
  - exists []. rewrite app_nil_r. split; [reflexivity | simpl; lia].
  - eexists; split; [reflexivity | simpl; lia].
  - eexists; split; [reflexivity | simpl; lia].
  - eexists; split; [reflexivity | simpl; lia].
  - exists []. rewrite app_nil_r. split; [reflexivity | simpl; lia].
  - eexists; split; [reflexivity | simpl; lia].
  - eexists; split; [reflexivity | simpl; lia].
Qed.

Lemma adapter_calls_app (xs ys : list Event) :
  adapter_calls (xs ++ ys) = adapter_calls xs ++ adapter_calls ys.
Proof.
  unfold adapter_calls. apply omap_app.
Qed.

(** No handling of a message calls more than one adapter. *)
Lemma on_message_calls_at_most_once env sid message w :
  length (adapter_calls (snd (on_message env sid message w))) <= 1.
Proof.
  destruct (userSessions w !! sid) as [s|] eqn:Hs.
  - destruct (on_message_turn env sid message w s Hs)
      as [(intent & content & st2 & _ & Ht & ->) | ->].
    + rewrite finish_events, answered_trace.
      destruct (Turn_calls _ _ _ Ht) as (events & -> & Hn).
      rewrite received_trace. simpl.
      rewrite adapter_calls_app. simpl. rewrite app_nil_r. exact Hn.
    + rewrite finish_events. unfold apologised. simpl.
      rewrite saved_trace. simpl. lia.
  - unfold on_message. rewrite Hs. simpl. lia.
Qed.

Lemma step_calls_at_most_once env i w :
  length (adapter_calls (snd (step env i w))) <= 1.
Proof.
  destruct i as [sid uid | sid message | sid]; cbn [step].
  - unfold on_identify. rewrite finish_events.
    unfold identify_body. run_monad.
    unfold getConversationHistory, saveMessage, start. simpl.
    destruct (container w) as [docs|]; simpl.
    + destruct (db env 0); simpl;
        repeat match goal with
               | |- context [if ?b then _ else _] => destruct b; simpl
               end; lia.
    + lia.
  - apply on_message_calls_at_most_once.
  - simpl. lia.
Qed.

Lemma run_app inputs1 inputs2 w :
  run (inputs1 ++ inputs2) w
  = (fst (run inputs2 (fst (run inputs1 w))),
     snd (run inputs1 w) ++ snd (run inputs2 (fst (run inputs1 w)))).
Proof.
  revert w. induction inputs1 as [|[env i] rest IH]; intros w; simpl.
  - now destruct (run inputs2 w).
  - destruct (step env i w) as [w1 events1]. rewrite IH.
    destruct (run rest w1) as [w2 events2]. simpl.
    now rewrite app_assoc.
Qed.

Lemma run_one env i w : run [(env, i)] w = (fst (step env i w), snd (step env i w) ++ []).
Proof. simpl. now destruct (step env i w). Qed.

(** ** The handler on each kind of flow intent *)

Lemma adapter_returns_true env kind :
  adapter_returns env kind = true <->
  kind <> QUERY_FLIGHT \/ exists status data, http env = Responded status data.
Proof.
  unfold adapter_returns. split.
  - destruct kind; try (intros _; left; discriminate).
    destruct (http env); try discriminate. intros _. right; eauto.
  - intros [Hne | (status & data & ->)]; destruct kind; congruence.
Qed.

Lemma adapter_returns_false env kind :
  adapter_returns env kind = false <->
  kind = QUERY_FLIGHT /\ forall status data, http env <> Responded status data.
Proof.
  unfold adapter_returns. split.
  - destruct kind; try discriminate.
    destruct (http env); try discriminate; intros _; split; congruence.
  - intros [-> Hfailed]. destruct (http env) as [status data| |]; try reflexivity.
    now destruct (Hfailed status data).
Qed.

Section FlowIntents.

Variables (env : Env) (sid : string) (message : Message) (w : World) (s : Session).
Variable intent : JsVal.
Hypothesis Hsession : userSessions w !! sid = Some s.
Hypothesis Hclient : openai env = true.
Hypothesis Hreply : classifier env = Replied (Some intent).

Let st1 : St := received env message (start s w).

Lemma on_message_start kind :
  is_str (prop intent "action") (start_action kind) = true ->
  on_message env sid message w
  = finish sid w
      (answered env (userId s) (composed env (st_generated st1))
         (generated (start_prompt kind) (with_session (started kind intent) st1))).
Proof.
  intros Ha.
  eapply on_message_answered;
    [ eassumption | assumption | eassumption | exact (get_action_object _ _ Ha)
    | apply (respond_start _ _ _ _ Ha) ].
Qed.

Hypothesis Haction : is_str (prop intent "action") "CONTINUE_FLOW" = true.

Lemma on_message_step :
  truthy (prop intent "isFlowComplete") = false ->
  on_message env sid message w
  = finish sid w
      (answered env (userId s) (composed env (st_generated st1))
         (generated PromptFlowStep (with_session (continued intent) st1))).
Proof.
  intros Hf.
  eapply on_message_answered;
    [ eassumption | assumption | eassumption | exact (get_action_object _ _ Haction)
    | rewrite (respond_continue _ _ _ Haction); apply (continue_flow_incomplete _ _ _ Hf) ].
Qed.

Hypothesis Hcomplete : truthy (prop intent "isFlowComplete") = true.

Lemma on_message_no_such_flow :
  flow_case (prop intent "flow") = None ->
  on_message env sid message w
  = finish sid w
      (answered env (userId s) (JStr "") (with_session (continued intent) st1)).
Proof.
  intros Hk.
  eapply on_message_answered;
    [ eassumption | assumption | eassumption | exact (get_action_object _ _ Haction)
    | rewrite (respond_continue _ _ _ Haction);
      apply (continue_flow_unknown _ _ _ Hcomplete Hk) ].
Qed.

Lemma on_message_completed kind :
  flow_case (prop intent "flow") = Some kind ->
  kind <> QUERY_FLIGHT \/ (exists status data, http env = Responded status data) ->
  on_message env sid message w
  = finish sid w
      (answered env (userId s) (composed env (st_generated st1))
         (with_session reset
            (generated (result_prompt kind)
               (called kind (with_session (continued intent) st1))))).
Proof.
  intros Hk Hreturned.
  eapply on_message_answered;
    [ eassumption | assumption | eassumption | exact (get_action_object _ _ Haction) | ].
  rewrite (respond_continue _ _ _ Haction), (continue_flow_complete _ _ _ _ Hcomplete Hk).
  rewrite complete_flow_returned; [reflexivity|].
  destruct Hreturned as [Hne | Hh]; [now left | right; split; [|exact Hh]].
  apply js_or_truthy. reflexivity.
Qed.

Lemma on_message_search_failed :
  flow_case (prop intent "flow") = Some QUERY_FLIGHT ->
  (forall status data, http env <> Responded status data) ->
  on_message env sid message w
  = finish sid w
      (answered env (userId s) (composed env (st_generated st1))
         (generated PromptFlowSearchError
            (called QUERY_FLIGHT (with_session (continued intent) st1)))).
Proof.
  intros Hk Hfailed.
  eapply on_message_answered;
    [ eassumption | assumption | eassumption | exact (get_action_object _ _ Haction) | ].
  rewrite (respond_continue _ _ _ Haction), (continue_flow_complete _ _ _ _ Hcomplete Hk).
  now rewrite complete_flow_search_failed.
Qed.

(** Whichever way the adapter call ends. *)
Lemma on_message_dispatch kind :
  flow_case (prop intent "flow") = Some kind ->
  on_message env sid message w
  = finish sid w
      (answered env (userId s) (composed env (st_generated st1))
         (if adapter_returns env kind
          then with_session reset
                 (generated (result_prompt kind)
                    (called kind (with_session (continued intent) st1)))
          else generated PromptFlowSearchError
                 (called QUERY_FLIGHT (with_session (continued intent) st1)))).
Proof.
  intros Hk. destruct (adapter_returns env kind) eqn:Hret.
  - apply on_message_completed; [exact Hk | now apply adapter_returns_true].
  - apply adapter_returns_false in Hret as [-> Hfailed].
    now apply on_message_search_failed.
Qed.

End FlowIntents.

(** C10: a CONTINUE_FLOW intent with isFlowComplete true whose flow is none
    of QUERY_FLIGHT, BUY_TICKET, CHECK_IN calls no adapter, is answered
    with the empty string, and leaves activeFlow = intent.flow and
    currentStep = intent.nextStep: the flow is not reset. *)
Theorem complete_unknown_flow_keeps_state env sid message w s intent :
  userSessions w !! sid = Some s ->
  openai env = true ->
  classifier env = Replied (Some intent) ->
  is_str (prop intent "action") "CONTINUE_FLOW" = true ->
  truthy (prop intent "isFlowComplete") = true ->
  (forall kind, prop intent "flow" <> JStr (flow_name kind)) ->
  exists s',
    userSessions (fst (on_message env sid message w)) !! sid = Some s' /\
    activeFlow s' = prop intent "flow" /\
    currentStep s' = prop intent "nextStep" /\
    adapter_calls (snd (on_message env sid message w)) = [] /\
    replies (snd (on_message env sid message w)) = [JStr ""].
Proof.
  intros Hs Hc Hr Ha Hf Hk. apply flow_case_none in Hk.
  rewrite (on_message_no_such_flow env sid message w s intent Hs Hc Hr Ha Hf Hk).
  observe. repeat split.
Qed.

Lemma complete_unknown_flow_keeps_state_witness :
  exists s',
    userSessions (fst (on_message
                         (Sample.env
                            (Replied (Some (Sample.complete (JStr "REFUND") Sample.ticket)))
                            (Responded 200 JNull) "2024-05-01T10:01:00.000Z")
                         "s1" (Sample.said "2024-05-01T10:00:59.000Z" "John Doe")
                         Sample.world)) !! "s1" = Some s' /\
    activeFlow s' = JStr "REFUND" /\
    currentStep s' = JNum 2.
Proof.
  destruct (complete_unknown_flow_keeps_state
              (Sample.env (Replied (Some (Sample.complete (JStr "REFUND") Sample.ticket)))
                 (Responded 200 JNull) "2024-05-01T10:01:00.000Z")
              "s1" (Sample.said "2024-05-01T10:00:59.000Z" "John Doe")
              Sample.world Sample.session
              (Sample.complete (JStr "REFUND") Sample.ticket))
    as (s' & Hs & Hf & Hn & _); try reflexivity.
  - intros []; discriminate.
  - exists s'. repeat split; assumption.
Defined.

(** ** Dispatch on completion *)

(** A CONTINUE_FLOW intent with isFlowComplete true and flow REFUND is
    handled without any adapter call. *)
Lemma completion_without_adapter_call :
  let intent := Sample.complete (JStr "REFUND") Sample.ticket in
  let env := Sample.env (Replied (Some intent)) (Responded 200 JNull)
               "2024-05-01T10:01:00.000Z" in
  userSessions Sample.world !! "s1" = Some Sample.session /\
  is_str (prop intent "action") "CONTINUE_FLOW" = true /\
  truthy (prop intent "isFlowComplete") = true /\
  adapter_calls
    (snd (on_message env "s1" (Sample.said "2024-05-01T10:00:59.000Z" "John Doe")
            Sample.world)) = [].
Proof. repeat split. Qed.

(** C2, amended: when a sequence of inputs ends in a CONTINUE_FLOW intent
    with isFlowComplete true whose flow is QUERY_FLIGHT, BUY_TICKET or
    CHECK_IN, that last message makes exactly one adapter call, of that
    kind, with the collectedParams the intent carries (the empty object
    when it carries none); and no input ever makes more than one. *)
Theorem completion_calls_adapter_once env sid message w s intent kind :
  userSessions w !! sid = Some s ->
  openai env = true ->
  classifier env = Replied (Some intent) ->
  is_str (prop intent "action") "CONTINUE_FLOW" = true ->
  truthy (prop intent "isFlowComplete") = true ->
  prop intent "flow" = JStr (flow_name kind) ->
  adapter_calls (snd (on_message env sid message w))
  = [(kind, js_or (prop intent "collectedParams") empty_object)] /\
  (forall fs, prop intent "collectedParams" = JObj fs ->
     adapter_calls (snd (on_message env sid message w)) = [(kind, JObj fs)]) /\
  (forall inputs w0, fst (run inputs w0) = w ->
     adapter_calls (snd (run (inputs ++ [(env, Incoming sid message)]) w0))
     = adapter_calls (snd (run inputs w0))
       ++ [(kind, js_or (prop intent "collectedParams") empty_object)]) /\
  (forall env' i w', length (adapter_calls (snd (step env' i w'))) <= 1).
Proof.
  intros Hs Hc Hr Ha Hf Hk. apply flow_case_some in Hk.
  assert (Hcalls : adapter_calls (snd (on_message env sid message w))
                   = [(kind, js_or (prop intent "collectedParams") empty_object)]).
  { rewrite (on_message_dispatch env sid message w s intent Hs Hc Hr Ha Hf kind Hk).
    rewrite finish_events, answered_trace.
    destruct (adapter_returns env kind) eqn:Hret.
    - simpl. now rewrite saved_trace.
    - apply adapter_returns_false in Hret as [-> _]. simpl. now rewrite saved_trace. }
  repeat split.
  - exact Hcalls.
  - intros fs Hfs. now rewrite Hcalls, Hfs.
  - intros inputs w0 Hw. rewrite run_app, run_one. simpl snd.
    rewrite !adapter_calls_app, Hw. simpl step. rewrite Hcalls. reflexivity.
  - apply step_calls_at_most_once.
Qed.

Lemma completion_calls_adapter_once_witness :
  adapter_calls
    (snd (on_message
            (Sample.env (Replied (Some (Sample.complete (JStr "BUY_TICKET") Sample.ticket)))
               (NoResponse "timeout of 10000ms exceeded") "2024-05-01T10:01:00.000Z")
            "s1" (Sample.said "2024-05-01T10:00:59.000Z" "John Doe") Sample.world))
  = [(BUY_TICKET, Sample.ticket)].
Proof.
  apply (completion_calls_adapter_once
           (Sample.env (Replied (Some (Sample.complete (JStr "BUY_TICKET") Sample.ticket)))
              (NoResponse "timeout of 10000ms exceeded") "2024-05-01T10:01:00.000Z")
           "s1" (Sample.said "2024-05-01T10:00:59.000Z" "John Doe")
           Sample.world Sample.session
           (Sample.complete (JStr "BUY_TICKET") Sample.ticket) BUY_TICKET);
    reflexivity.
Defined.

(** ** Flow reset after a completion *)

(** A QUERY_FLIGHT flow completes, the search adapter is called and gets no
    response: the session stays in the QUERY_FLIGHT flow at the intent's
    step. *)
Lemma failed_search_keeps_flow :
  let params := JObj [("origin", JStr "JFK"); ("destination", JStr "LAX");
                      ("dateFrom", JStr "2024-05-01"); ("dateTo", JStr "2024-05-01");
                      ("passengers", JStr "2")] in
  let intent := Sample.complete (JStr "QUERY_FLIGHT") params in
  let env := Sample.env (Replied (Some intent)) (NoResponse "timeout of 150000ms exceeded")
               "2024-05-01T10:01:00.000Z" in
  let result := on_message env "s1" (Sample.said "2024-05-01T10:00:59.000Z" "two of us")
                  Sample.world in
  adapter_calls (snd result) = [(QUERY_FLIGHT, params)] /\
  activeFlow <$> userSessions (fst result) !! "s1" = Some (JStr "QUERY_FLIGHT") /\
  currentStep <$> userSessions (fst result) !! "s1" = Some (JNum 2).
Proof. repeat split. Qed.

(** A QUERY_FLIGHT completion whose search adapter throws leaves the flow
    as the intent set it. *)
Lemma search_failure_keeps_flow env sid message w s intent :
  userSessions w !! sid = Some s ->
  openai env = true ->
  classifier env = Replied (Some intent) ->
  is_str (prop intent "action") "CONTINUE_FLOW" = true ->
  truthy (prop intent "isFlowComplete") = true ->
  prop intent "flow" = JStr "QUERY_FLIGHT" ->
  (forall status data, http env <> Responded status data) ->
  exists s',
    userSessions (fst (on_message env sid message w)) !! sid = Some s' /\
    activeFlow s' = JStr "QUERY_FLIGHT" /\
    currentStep s' = prop intent "nextStep".
Proof.
  intros Hs Hc Hr Ha Hf Hflow Hfailed.
  assert (Hk : flow_case (prop intent "flow") = Some QUERY_FLIGHT)
    by now apply flow_case_some.
  rewrite (on_message_search_failed env sid message w s intent Hs Hc Hr Ha Hf Hk Hfailed).
  observe. now rewrite Hflow.
Qed.

(** C3, amended: after the completion dispatch of a BUY_TICKET or CHECK_IN
    flow the session has activeFlow = null and currentStep = null whatever
    the adapter's outcome (success, rejection by the backend, no response),
    and so it has after the completion dispatch of a QUERY_FLIGHT flow
    whose search the backend answered. *)
Theorem completion_resets_flow env sid message w s intent kind :
  userSessions w !! sid = Some s ->
  openai env = true ->
  classifier env = Replied (Some intent) ->
  is_str (prop intent "action") "CONTINUE_FLOW" = true ->
  truthy (prop intent "isFlowComplete") = true ->
  prop intent "flow" = JStr (flow_name kind) ->
  kind <> QUERY_FLIGHT \/ (exists status data, http env = Responded status data) ->
  exists s',
    userSessions (fst (on_message env sid message w)) !! sid = Some s' /\
    adapter_calls (snd (on_message env sid message w))
    = [(kind, js_or (prop intent "collectedParams") empty_object)] /\
    activeFlow s' = JNull /\
    currentStep s' = JNull.
Proof.
  intros Hs Hc Hr Ha Hf Hflow Hreturned. apply flow_case_some in Hflow.
  rewrite (on_message_completed env sid message w s intent Hs Hc Hr Ha Hf kind Hflow
             Hreturned).
  observe. repeat split.
Qed.

Lemma completion_resets_flow_witness :
  exists s',
    userSessions (fst (on_message
                         (Sample.env
                            (Replied (Some (Sample.complete (JStr "BUY_TICKET") Sample.ticket)))
                            (NoResponse "timeout of 10000ms exceeded")
                            "2024-05-01T10:01:00.000Z")
                         "s1" (Sample.said "2024-05-01T10:00:59.000Z" "John Doe")
                         Sample.world)) !! "s1" = Some s' /\
    activeFlow s' = JNull /\ currentStep s' = JNull.
Proof.
  destruct (completion_resets_flow
              (Sample.env (Replied (Some (Sample.complete (JStr "BUY_TICKET") Sample.ticket)))
                 (NoResponse "timeout of 10000ms exceeded") "2024-05-01T10:01:00.000Z")
              "s1" (Sample.said "2024-05-01T10:00:59.000Z" "John Doe")
              Sample.world Sample.session
              (Sample.complete (JStr "BUY_TICKET") Sample.ticket) BUY_TICKET)
    as (s' & Hs & _ & Hflow & Hstep).
  - reflexivity.
  - reflexivity.
  - reflexivity.
  - reflexivity.
  - reflexivity.
  - reflexivity.
  - left. discriminate.
  - exists s'. repeat split; assumption.
Defined.

(** ** Collected parameters across flows *)

(** Whatever becomes of a CONTINUE_FLOW intent, the session ends with the
    parameters it carried. *)
Lemma on_message_continue_params env sid message w s intent s' :
  userSessions w !! sid = Some s ->
  openai env = true ->
  classifier env = Replied (Some intent) ->
  is_str (prop intent "action") "CONTINUE_FLOW" = true ->
  userSessions (fst (on_message env sid message w)) !! sid = Some s' ->
  collectedParams s' = js_or (prop intent "collectedParams") empty_object.
Proof.
  intros Hs Hc Hr Ha.
  destruct (truthy (prop intent "isFlowComplete")) eqn:Hf.
  - destruct (flow_case (prop intent "flow")) as [kind|] eqn:Hk.
    + rewrite (on_message_dispatch env sid message w s intent Hs Hc Hr Ha Hf kind Hk).
      rewrite finish_lookup, answered_session.
      destruct (adapter_returns env kind); intros [= <-]; reflexivity.
    + rewrite (on_message_no_such_flow env sid message w s intent Hs Hc Hr Ha Hf Hk).
      rewrite finish_lookup, answered_session. intros [= <-]; reflexivity.
  - rewrite (on_message_step env sid message w s intent Hs Hc Hr Ha Hf).
    rewrite finish_lookup, answered_session. intros [= <-]; reflexivity.
Qed.

(** A BUY_TICKET flow completes and the booking succeeds: the flow is reset
    but the session still holds the parameters of the finished flow. *)
Lemma completion_leaves_params :
  let intent := Sample.complete (JStr "BUY_TICKET") Sample.ticket in
  let env := Sample.env (Replied (Some intent)) (Responded 200 (JObj []))
               "2024-05-01T10:01:00.000Z" in
  let result := on_message env "s1" (Sample.said "2024-05-01T10:00:59.000Z" "John Doe")
                  Sample.world in
  adapter_calls (snd result) = [(BUY_TICKET, Sample.ticket)] /\
  activeFlow <$> userSessions (fst result) !! "s1" = Some JNull /\
  collectedParams <$> userSessions (fst result) !! "s1" = Some Sample.ticket /\
  Sample.ticket <> empty_object.
Proof. repeat split. discriminate. Qed.

(** C4, amended: on the completion of a QUERY_FLIGHT, BUY_TICKET or
    CHECK_IN flow the intent's collectedParams are handed to the adapter
    and stay in the session (they are not cleared); every later START_* or
    CONTINUE_FLOW intent, whatever the session has become in between,
    replaces them with the parameters it carries (the empty object when it
    carries none), so what one flow collected is never merged into the
    next. *)
Theorem completion_keeps_params_until_replaced env sid message w s intent kind :
  userSessions w !! sid = Some s ->
  openai env = true ->
  classifier env = Replied (Some intent) ->
  is_str (prop intent "action") "CONTINUE_FLOW" = true ->
  truthy (prop intent "isFlowComplete") = true ->
  prop intent "flow" = JStr (flow_name kind) ->
  exists s',
    userSessions (fst (on_message env sid message w)) !! sid = Some s' /\
    collectedParams s' = js_or (prop intent "collectedParams") empty_object /\
    adapter_calls (snd (on_message env sid message w)) = [(kind, collectedParams s')] /\
    forall env2 message2 w2 later intent2 s2,
      userSessions w2 !! sid = Some later ->
      openai env2 = true ->
      classifier env2 = Replied (Some intent2) ->
      flow_intent intent2 ->
      userSessions (fst (on_message env2 sid message2 w2)) !! sid = Some s2 ->
      collectedParams s2 = js_or (carried_params intent2) empty_object.
Proof.
  intros Hs Hc Hr Ha Hf Hflow. pose proof Hflow as Hk. apply flow_case_some in Hk.
  assert (Hfirst : exists s',
             userSessions (fst (on_message env sid message w)) !! sid = Some s' /\
             collectedParams s' = js_or (prop intent "collectedParams") empty_object /\
             adapter_calls (snd (on_message env sid message w))
             = [(kind, js_or (prop intent "collectedParams") empty_object)]).
  { rewrite (on_message_dispatch env sid message w s intent Hs Hc Hr Ha Hf kind Hk).
    destruct (adapter_returns env kind) eqn:Hret.
    - observe. now split.
    - apply adapter_returns_false in Hret as [-> _]. observe. now split. }
  destruct Hfirst as (s' & Hs' & Hp & Hcalls).
  exists s'. split; [exact Hs'|]. split; [exact Hp|]. split; [now rewrite Hp|].
  intros env2 message2 w2 later intent2 s2 Hs2 Hc2 Hr2 Hflow2 Hafter.
  unfold carried_params.
  destruct (is_str (prop intent2 "action") "CONTINUE_FLOW") eqn:Ha2.
  - exact (on_message_continue_params env2 sid message2 w2 later intent2 s2
             Hs2 Hc2 Hr2 Ha2 Hafter).
  - destruct Hflow2 as [Hcont | [kind2 Hstart]]; [congruence|].
    rewrite (on_message_start env2 sid message2 w2 later intent2 Hs2 Hc2 Hr2 kind2 Hstart)
      in Hafter.
    rewrite finish_lookup, answered_session in Hafter.
    injection Hafter as <-. reflexivity.
Qed.

Lemma completion_keeps_params_until_replaced_witness :
  let completed :=
    fst (on_message
           (Sample.env (Replied (Some (Sample.complete (JStr "BUY_TICKET") Sample.ticket)))
              (Responded 200 (JObj [])) "2024-05-01T10:01:00.000Z")
           "s1" (Sample.said "2024-05-01T10:00:59.000Z" "John Doe") Sample.world) in
  let chatted :=
    fst (on_message
           (Sample.env
              (Replied (Some (JObj [("action", JStr "CHAT"); ("response", JStr "Bye!")])))
              (NoResponse "") "2024-05-01T10:02:00.000Z")
           "s1" (Sample.said "2024-05-01T10:01:59.000Z" "thanks") completed) in
  let searching :=
    fst (on_message
           (Sample.env (Replied (Some (JObj [("action", JStr "START_QUERY_FLOW")])))
              (NoResponse "") "2024-05-01T10:03:00.000Z")
           "s1" (Sample.said "2024-05-01T10:02:59.000Z" "find me a flight") chatted) in
  exists s',
    userSessions completed !! "s1" = Some s' /\
    collectedParams s' = Sample.ticket /\
    collectedParams <$> userSessions chatted !! "s1" = Some Sample.ticket /\
    collectedParams <$> userSessions searching !! "s1" = Some empty_object.
Proof.
  intros completed chatted searching.
  destruct (completion_keeps_params_until_replaced
              (Sample.env (Replied (Some (Sample.complete (JStr "BUY_TICKET") Sample.ticket)))
                 (Responded 200 (JObj [])) "2024-05-01T10:01:00.000Z")
              "s1" (Sample.said "2024-05-01T10:00:59.000Z" "John Doe")
              Sample.world Sample.session
              (Sample.complete (JStr "BUY_TICKET") Sample.ticket) BUY_TICKET)
    as (s' & Hs & Hp & _ & Hlater).
  - reflexivity.
  - reflexivity.
  - reflexivity.
  - reflexivity.
  - reflexivity.
  - reflexivity.
  - exists s'. split; [exact Hs|]. split; [exact Hp|]. split; [reflexivity|].
    destruct (userSessions chatted !! "s1") as [later|] eqn:Hchatted;
      [|vm_compute in Hchatted; discriminate Hchatted].
    destruct (userSessions searching !! "s1") as [s2|] eqn:Hsearching;
      [|vm_compute in Hsearching; discriminate Hsearching].
    simpl. f_equal.
    apply (Hlater
             (Sample.env (Replied (Some (JObj [("action", JStr "START_QUERY_FLOW")])))
                (NoResponse "") "2024-05-01T10:03:00.000Z")
             (Sample.said "2024-05-01T10:02:59.000Z" "find me a flight")
             chatted later (JObj [("action", JStr "START_QUERY_FLOW")]) s2).
    + exact Hchatted.
    + reflexivity.
    + reflexivity.
    + right. exists QUERY_FLIGHT. reflexivity.
    + exact Hsearching.
Defined.

(** ** Unrecognised actions *)





(** ** Classifier failures *)

Lemma on_message_fallback env sid message w s :
  userSessions w !! sid = Some s ->
  classifier_fails env ->
  on_message env sid message w
  = finish sid w
      (answered env (userId s) (JStr classifier_apology)
         (received env message (start s w))).
Proof.
  intros Hs Hfail. unfold on_message. rewrite Hs.
  erewrite message_body_answered;
    [ | apply detectIntent_fallback; exact Hfail
      | apply (respond_chat env fallback_intent _ (JStr "CHAT")); [reflexivity | now left] ].
  now rewrite received_session.
Qed.





(** ** The flow invariant *)

(** After [identify], a CONTINUE_FLOW intent that names a flow and has
    [nextStep: null] leaves the session in the BUY_TICKET flow with
    currentStep = null: the invariant fails, however "null" is read. *)
Lemma continue_flow_breaks_invariant :
  let intent := JObj [("action", JStr "CONTINUE_FLOW"); ("flow", JStr "BUY_TICKET");
                      ("nextStep", JNull);
                      ("collectedParams", JObj [("flightNumber", JStr "FL3940")]);
                      ("isFlowComplete", JBool false)] in
  let inputs :=
    [(Sample.env (Replied None) (NoResponse "") "2024-05-01T10:00:00.000Z",
      Identify "s1" "u1");
     (Sample.env (Replied (Some intent)) (NoResponse "") "2024-05-01T10:01:00.000Z",
      Incoming "s1" (Sample.said "2024-05-01T10:00:59.000Z" "FL3940 please"))] in
  exists s,
    userSessions (fst (run inputs (boot None))) !! "s1" = Some s /\
    activeFlow s = JStr "BUY_TICKET" /\
    currentStep s = JNull /\
    ~ flow_invariant is_null s /\
    ~ flow_invariant is_nullish s.
Proof.
  eexists. split; [reflexivity|].
  repeat split; unfold flow_invariant; simpl; discriminate.
Qed.

Section FlowInvariant.

(** The reading of "is NONE" and "is null": [null] counts, a flow's name
    and step 1 do not. *)
Variable is_none : JsVal -> bool.
Hypothesis none_null : is_none JNull = true.
Hypothesis none_one : is_none (JNum 1) = false.
Hypothesis none_flow : forall kind, is_none (JStr (flow_name kind)) = false.

Lemma Turn_flow_invariant intent st st' :
  Turn intent st st' ->
  (is_str (prop intent "action") "CONTINUE_FLOW" = true ->
   is_none (prop intent "flow") = is_none (prop intent "nextStep")) ->
  flow_invariant is_none (st_session st) ->
  flow_invariant is_none (st_session st').
Proof.
  unfold flow_invariant.
  intros [ | kind p | kind | Ha | Ha Hk | kind Ha Hk | Ha Hk ] Hcoh Hinv; simpl; auto.
  now rewrite none_flow, none_one.
Qed.

Lemma on_message_flow_invariant env sid message w s :
  userSessions w !! sid = Some s ->
  coherent is_none env ->
  flow_invariant is_none s ->
  exists s', userSessions (fst (on_message env sid message w)) !! sid = Some s'
             /\ flow_invariant is_none s'.
Proof.
  intros Hs Hcoh Hinv.
  destruct (on_message_turn env sid message w s Hs)
    as [(intent & content & st2 & Horigin & Ht & ->) | ->].
  - rewrite finish_lookup, answered_session. eexists; split; [reflexivity|].
    apply (Turn_flow_invariant intent _ _ Ht).
    + intros Ha. destruct Horigin as [-> | Hr]; [discriminate Ha | now apply Hcoh].
    + now rewrite received_session.
  - rewrite finish_lookup. unfold apologised. simpl. rewrite saved_session.
    eexists; split; [reflexivity | exact Hinv].
Qed.

Lemma finish_lookup_ne sid sid' w st :
  sid <> sid' -> userSessions (fst (finish sid w st)) !! sid' = userSessions w !! sid'.
Proof. intros Hne. unfold finish. simpl. now apply lookup_insert_ne. Qed.

Lemma identify_flow_state env uid st0 :
  activeFlow (st_session (snd (identify_body env uid st0))) = activeFlow (st_session st0) /\
  currentStep (st_session (snd (identify_body env uid st0))) = currentStep (st_session st0).
Proof.
  unfold identify_body. run_monad. unfold getConversationHistory, saveMessage.
  destruct st0 as [s0 [docs|] trace n r]; simpl.
  - destruct (db env r); simpl;
      repeat match goal with
             | |- context [if ?b then _ else _] => destruct b; simpl
             end; split; reflexivity.
  - split; reflexivity.
Qed.

Lemma step_flow_invariant env i w :
  coherent is_none env ->
  (forall sid s, userSessions w !! sid = Some s -> flow_invariant is_none s) ->
  forall sid s, userSessions (fst (step env i w)) !! sid = Some s -> flow_invariant is_none s.
Proof.
  intros Hcoh Hall sid s.
  destruct i as [sid0 uid | sid0 message | sid0]; cbn [step].
  - unfold on_identify. destruct (decide (sid0 = sid)) as [-> | Hne].
    + rewrite finish_lookup. intros [= <-]. unfold flow_invariant.
      destruct (identify_flow_state env uid (start (new_session uid) w)) as [-> ->].
      simpl. now rewrite none_null.
    + rewrite finish_lookup_ne by exact Hne. apply Hall.
  - destruct (userSessions w !! sid0) as [s0|] eqn:Hs0.
    + destruct (decide (sid0 = sid)) as [-> | Hne].
      * destruct (on_message_flow_invariant env sid message w s0 Hs0 Hcoh (Hall _ _ Hs0))
          as (s' & Hs' & Hinv).
        rewrite Hs'. now intros [= <-].
      * unfold on_message. rewrite Hs0, finish_lookup_ne by exact Hne. apply Hall.
    + unfold on_message. rewrite Hs0. apply Hall.
  - simpl. destruct (decide (sid0 = sid)) as [-> | Hne].
    + now rewrite lookup_delete_eq.
    + rewrite lookup_delete_ne by exact Hne. apply Hall.
Qed.

(** C1, amended: in every reachable state, after every input, each
    session has activeFlow = NONE exactly when currentStep = null,
    provided every CONTINUE_FLOW intent the classifier returned had flow
    and nextStep both null or both set; the other transitions (CHAT, the
    single-shot actions, START_*, unrecognised actions, the error paths)
    preserve the equivalence by themselves. *)
Theorem flow_invariant_reachable w :
  reachable is_none w ->
  forall sid s, userSessions w !! sid = Some s -> flow_invariant is_none s.
Proof.
  induction 1 as [c | env i w Hreach IH Hcoh].
  - intros sid s. unfold boot. simpl. now rewrite lookup_empty.
  - now apply step_flow_invariant.
Qed.

End FlowInvariant.

Lemma flow_invariant_reachable_witness :
  let inputs :=
    [(Sample.env (Replied None) (NoResponse "") "2024-05-01T10:00:00.000Z",
      Identify "s1" "u1");
     (Sample.env (Replied (Some Sample.start_buy)) (NoResponse "")
        "2024-05-01T10:01:00.000Z",
      Incoming "s1" (Sample.said "2024-05-01T10:00:59.000Z" "book FL3940"))] in
  exists s,
    userSessions (fst (run inputs (boot None))) !! "s1" = Some s /\
    activeFlow s = JStr "BUY_TICKET" /\
    flow_invariant is_null s.
Proof.
  intros inputs.
  set (env1 := Sample.env (Replied None) (NoResponse "") "2024-05-01T10:00:00.000Z").
  set (env2 := Sample.env (Replied (Some Sample.start_buy)) (NoResponse "")
                 "2024-05-01T10:01:00.000Z").
  set (i2 := Incoming "s1" (Sample.said "2024-05-01T10:00:59.000Z" "book FL3940")).
  assert (Hreach : reachable is_null (fst (run inputs (boot None)))).
  { change (reachable is_null
              (fst (step env2 i2 (fst (step env1 (Identify "s1" "u1") (boot None)))))).
    apply reachable_step; [apply reachable_step; [apply reachable_boot|] |].
    - intros intent [=].
    - intros intent [= <-] Ha. discriminate Ha. }
  eexists. split; [reflexivity|]. split; [reflexivity|].
  apply (flow_invariant_reachable is_null eq_refl eq_refl
           (fun kind => match kind with
                        | QUERY_FLIGHT | BUY_TICKET | CHECK_IN => eq_refl
                        end)
           _ Hreach "s1").
  reflexivity.
Defined.

(** ** Re-opening a session *)

(** Without an initialised container nothing is stored: the history of a
    closed session (welcome, question, answer) is not in the session the
    same user opens next. *)
Lemma reopen_without_store_loses_history :
  let chat := JObj [("action", JStr "CHAT"); ("response", JStr "Hello!")] in
  let first :=
    [(Sample.env (Replied None) (NoResponse "") "2024-05-01T10:00:00.000Z",
      Identify "s1" "u1");
     (Sample.env (Replied (Some chat)) (NoResponse "") "2024-05-01T10:01:00.000Z",
      Incoming "s1" (Sample.said "2024-05-01T10:00:59.000Z" "hello"))] in
  let again :=
    [(Sample.env (Replied None) (NoResponse "") "2024-05-01T10:02:00.000Z",
      Disconnect "s1");
     (Sample.env (Replied None) (NoResponse "") "2024-05-01T10:03:00.000Z",
      Identify "s2" "u1")] in
  let closed := fst (run first (boot None)) in
  let reopened := fst (run (first ++ again) (boot None)) in
  map msg_content <$> (conversationHistory <$> userSessions closed !! "s1")
  = Some [welcome_text; JStr "hello"; JStr "Hello!"] /\
  userSessions reopened !! "s1" = None /\
  map msg_content <$> (conversationHistory <$> userSessions reopened !! "s2")
  = Some [welcome_text] /\
  map msg_timestamp <$> (conversationHistory <$> userSessions reopened !! "s2")
  = Some ["2024-05-01T10:03:00.000Z"].
Proof. repeat split. Qed.








(** The server gets there from an empty, initialised store. *)
Example reopen_world_reached :
  fst (run Reopen.inputs (boot (Some []))) = Reopen.world.
Proof. vm_compute. reflexivity. Qed.


(** ** What a conversation leaves in the store *)

Lemma saved_created env message st docs :
  st_container st = Some docs ->
  db env (st_requests st) = true ->
  saved env message st
  = MkSt (st_session st) (Some (docs ++ [message])) (st_trace st)
         (st_generated st) (S (st_requests st)).
Proof. intros Hc Hdb. unfold saved, saveMessage. now rewrite Hc, Hdb. Qed.

(** The [switch] touches neither the store nor the history. *)
Lemma Turn_frame intent st st' :
  Turn intent st st' ->
  st_container st' = st_container st /\
  st_requests st' = st_requests st /\
  userId (st_session st') = userId (st_session st) /\
  conversationHistory (st_session st') = conversationHistory (st_session st).
Proof. intros []; simpl; auto. Qed.

Lemma stored_for_snoc uid docs (m : Message) :
  msg_userId m = uid -> stored_for uid (docs ++ [m]) = stored_for uid docs ++ [m].
Proof.
  intros Hm. unfold stored_for. rewrite filter_app. f_equal.
  rewrite filter_cons_True by exact Hm. reflexivity.
Qed.

(** While the store takes every message, a session whose history is what
    the store holds for its user stays so over each message of that
    user. *)
Lemma on_message_keeps_stored env sid message w s docs :
  userSessions w !! sid = Some s ->
  container w = Some docs ->
  stored_for (userId s) docs = conversationHistory s ->
  msg_userId message = userId s ->
  db env 0 = true ->
  db env 1 = true ->
  exists s' docs',
    userSessions (fst (on_message env sid message w)) !! sid = Some s' /\
    container (fst (on_message env sid message w)) = Some docs' /\
    userId s' = userId s /\
    stored_for (userId s') docs' = conversationHistory s'.
Proof.
  intros Hs Hc Hstored Hm Hdb0 Hdb1.
  assert (Hreceived : received env message (start s w)
                      = MkSt (push_history message s) (Some (docs ++ [message])) [] 0 1).
  { unfold received. rewrite (saved_created env message (start s w) docs Hc Hdb0).
    reflexivity. }
  destruct (on_message_turn env sid message w s Hs)
    as [(intent & content & st2 & _ & Ht & ->) | ->].
  - destruct (Turn_frame _ _ _ Ht) as (Hc2 & Hr2 & Hu2 & Hh2).
    rewrite Hreceived in Hc2, Hr2, Hu2, Hh2. simpl in Hc2, Hr2, Hu2, Hh2.
    unfold answered.
    rewrite (saved_created env _ _ (docs ++ [message])) by (simpl; congruence).
    simpl. do 2 eexists. split; [apply lookup_insert_eq|]. split; [reflexivity|].
    simpl. split; [exact Hu2|].
    rewrite Hu2, Hh2, !stored_for_snoc, Hstored by (simpl; congruence).
    now rewrite <- app_assoc.
  - rewrite Hreceived. unfold apologised. simpl.
    do 2 eexists. split; [apply lookup_insert_eq|]. split; [reflexivity|].
    simpl. split; [reflexivity|].
    now rewrite stored_for_snoc, Hstored.
Qed.

(** ** Scenarios *)

(** Scenario A: a single-shot QUERY_FLIGHT on a fresh session calls the
    search adapter with the intent's parameters and leaves the session
    without a flow. *)
Example scenario_single_shot_query :
  let params := JObj [("origin", JStr "JFK"); ("destination", JStr "LAX");
                      ("dateFrom", JStr "2024-05-01"); ("dateTo", JStr "2024-05-01");
                      ("passengers", JStr "2")] in
  let intent := JObj [("action", JStr "QUERY_FLIGHT"); ("parameters", params)] in
  let result :=
    on_message (Sample.env (Replied (Some intent)) (Responded 200 (JArr []))
                  "2024-05-01T10:01:00.000Z")
      "s1" (Sample.said "2024-05-01T10:00:59.000Z" "JFK to LAX on May 1st for two")
      Sample.world in
  adapter_calls (snd result) = [(QUERY_FLIGHT, params)] /\
  activeFlow <$> userSessions (fst result) !! "s1" = Some JNull /\
  currentStep <$> userSessions (fst result) !! "s1" = Some JNull.
Proof. repeat split. Qed.

(** Scenario B: START_BUY_FLOW opens the BUY_TICKET flow at step 1 without
    a dispatch; the completing CONTINUE_FLOW dispatches the booking with
    the collected parameters and resets the flow. *)
Example scenario_buy_flow :
  let inputs :=
    [(Sample.env (Replied (Some Sample.start_buy)) (NoResponse "")
        "2024-05-01T10:01:00.000Z",
      Incoming "s1" (Sample.said "2024-05-01T10:00:59.000Z" "book FL3940"));
     (Sample.env (Replied (Some (Sample.complete (JStr "BUY_TICKET") Sample.ticket)))
        (Responded 200 (JObj [])) "2024-05-01T10:02:00.000Z",
      Incoming "s1" (Sample.said "2024-05-01T10:01:59.000Z" "John Doe, May 1st"))] in
  let opened := run (take 1 inputs) Sample.world in
  let completed := run inputs Sample.world in
  adapter_calls (snd opened) = [] /\
  activeFlow <$> userSessions (fst opened) !! "s1" = Some (JStr "BUY_TICKET") /\
  currentStep <$> userSessions (fst opened) !! "s1" = Some (JNum 1) /\
  collectedParams <$> userSessions (fst opened) !! "s1"
  = Some (JObj [("flightNumber", JStr "FL3940")]) /\
  adapter_calls (snd completed) = [(BUY_TICKET, Sample.ticket)] /\
  activeFlow <$> userSessions (fst completed) !! "s1" = Some JNull /\
  currentStep <$> userSessions (fst completed) !! "s1" = Some JNull.
Proof. repeat split. Qed.

(** Scenario C: the booking request of a completed BUY_TICKET flow gets no
    response; the flow is reset all the same. *)
Example scenario_booking_transport_error :
  let result :=
    on_message
      (Sample.env (Replied (Some (Sample.complete (JStr "BUY_TICKET") Sample.ticket)))
         (NoResponse "timeout of 10000ms exceeded") "2024-05-01T10:01:00.000Z")
      "s1" (Sample.said "2024-05-01T10:00:59.000Z" "John Doe") Sample.world in
  adapter_calls (snd result) = [(BUY_TICKET, Sample.ticket)] /\
  activeFlow <$> userSessions (fst result) !! "s1" = Some JNull /\
  currentStep <$> userSessions (fst result) !! "s1" = Some JNull.
Proof. repeat split. Qed.

(** A reply that parses to [null] while no flow is active reaches the
    [switch], whose read of [intent.action] throws into the outer [catch]:
    the session only gains the user's message. *)
Example null_intent_is_apologised :
  let result :=
    on_message (Sample.env (Replied (Some JNull)) (NoResponse "") "2024-05-01T10:01:00.000Z")
      "s1" (Sample.said "2024-05-01T10:00:59.000Z" "hello") Sample.world in
  replies (snd result) = [processing_error_text] /\
  length <$> (conversationHistory <$> userSessions (fst result) !! "s1") = Some 2.
Proof. repeat split. Qed.

(** * Further properties of the gateway *)

(** ** Single-shot actions *)

Lemma respond_single_shot env intent st kind :
  is_str (prop intent "action") (flow_name kind) = true ->
  exists content p,
    respond env intent st
    = (Ok content, generated p (logged (Adapter kind (prop intent "parameters")) st)).
Proof.
  intros Ha. unfold respond, bind at 1, lift.
  rewrite (get_action_object _ _ Ha).
  destruct kind;
    [ change (action_case (JStr (flow_name QUERY_FLIGHT))) with CaseQueryFlight
    | change (action_case (JStr (flow_name BUY_TICKET))) with CaseBuyTicket
    | change (action_case (JStr (flow_name CHECK_IN))) with CaseCheckIn ];
    cbv beta iota.
  - unfold try_catch, bind.
    destruct (searchFlights env (prop intent "parameters") st) as [[flights|e] st1] eqn:Hs;
      pose proof (searchFlights_state env (prop intent "parameters") st) as Hst;
      rewrite Hs in Hst; simpl in Hst; subst st1; do 2 eexists; reflexivity.
  - unfold try_catch, bind.
    destruct (bookTicket_returns env (prop intent "parameters") st) as [r ->].
    do 2 eexists; reflexivity.
  - unfold try_catch, bind.
    destruct (checkIn_returns env (prop intent "parameters") st) as [r ->].
    do 2 eexists; reflexivity.
Qed.

(** X1: a QUERY_FLIGHT, BUY_TICKET or CHECK_IN intent calls the adapter of
    its kind exactly once, with intent.parameters as they are (absent
    included), answers with one message, and leaves activeFlow,
    currentStep and collectedParams of the session untouched. *)
Theorem single_shot_dispatches_once env sid message w s intent kind :
  userSessions w !! sid = Some s ->
  openai env = true ->
  classifier env = Replied (Some intent) ->
  is_str (prop intent "action") (flow_name kind) = true ->
  exists s',
    userSessions (fst (on_message env sid message w)) !! sid = Some s' /\
    activeFlow s' = activeFlow s /\
    currentStep s' = currentStep s /\
    collectedParams s' = collectedParams s /\
    adapter_calls (snd (on_message env sid message w))
    = [(kind, prop intent "parameters")] /\
    length (replies (snd (on_message env sid message w))) = 1.
Proof.
  intros Hs Hc Hr Ha.
  destruct (respond_single_shot env intent (received env message (start s w)) kind Ha)
    as (content & p & Hres).
  rewrite (on_message_answered env sid message w s intent _ content _ Hs Hc Hr
             (get_action_object _ _ Ha) Hres).
  observe. repeat split.
Qed.

Lemma single_shot_dispatches_once_witness :
  adapter_calls
    (snd (on_message
            (Sample.env
               (Replied (Some (JObj [("action", JStr "CHECK_IN")])))
               (Rejected 404 JNull "Request failed with status code 404")
               "2024-05-01T10:01:00.000Z")
            "s1" (Sample.said "2024-05-01T10:00:59.000Z" "check me in") Sample.world))
  = [(CHECK_IN, JUndefined)].
Proof.
  destruct (single_shot_dispatches_once
              (Sample.env (Replied (Some (JObj [("action", JStr "CHECK_IN")])))
                 (Rejected 404 JNull "Request failed with status code 404")
                 "2024-05-01T10:01:00.000Z")
              "s1" (Sample.said "2024-05-01T10:00:59.000Z" "check me in")
              Sample.world Sample.session
              (JObj [("action", JStr "CHECK_IN")]) CHECK_IN)
    as (s' & _ & _ & _ & _ & Hcalls & _).
  - reflexivity.
  - reflexivity.
  - reflexivity.
  - reflexivity.
  - exact Hcalls.
Defined.

(** ** What a message adds to the history and to the store *)

Lemma replies_app (xs ys : list Event) : replies (xs ++ ys) = replies xs ++ replies ys.
Proof. unfold replies. apply omap_app. Qed.

(** The [switch] itself sends nothing. *)
Lemma Turn_quiet intent st st' :
  Turn intent st st' ->
  exists events, st_trace st' = st_trace st ++ events /\ replies events = [].
Proof.
  intros []; simpl; rewrite <- ?app_assoc; simpl;
    try (eexists; split; [reflexivity | reflexivity]).
  - exists []. now rewrite app_nil_r.
  - exists []. now rewrite app_nil_r.
Qed.

(** A message with a payload that finds its session: one reply, and the
    message in the history. *)
Lemma on_message_replies env sid message w s :
  userSessions w !! sid = Some s ->
  exists s' reply,
    userSessions (fst (on_message env sid message w)) !! sid = Some s' /\
    userId s' = userId s /\
    replies (snd (on_message env sid message w)) = [msg_content reply] /\
    last (snd (on_message env sid message w)) = Some (EmitMessage reply) /\
    msg_sender reply = "assistant" /\
    msg_userId reply = userId s /\
    (conversationHistory s' = conversationHistory s ++ [message; reply] \/
     (conversationHistory s' = conversationHistory s ++ [message] /\
      msg_content reply = processing_error_text)).
Proof.
  intros Hs.
  destruct (on_message_turn env sid message w s Hs)
    as [(intent & content & st2 & _ & Ht & ->) | ->].
  - destruct (Turn_frame _ _ _ Ht) as (_ & _ & Hu & Hh).
    destruct (Turn_quiet _ _ _ Ht) as (events & Htrace & Hquiet).
    rewrite received_session in Hu, Hh. rewrite received_trace in Htrace.
    simpl in Hu, Hh, Htrace.
    rewrite finish_lookup, finish_events, answered_session, answered_trace.
    exists (push_history (assistant_message env (userId s) content) (st_session st2)),
      (assistant_message env (userId s) content).
    split; [reflexivity|]. simpl. rewrite Htrace, replies_app, Hquiet, Hh.
    repeat split; try assumption.
    + apply last_snoc.
    + left. now rewrite <- app_assoc.
  - rewrite finish_lookup, finish_events. unfold apologised. simpl.
    rewrite ?saved_session, ?saved_trace. simpl.
    eexists _, (assistant_message env (userId s) processing_error_text).
    split; [reflexivity|]. simpl. do 5 (split; [reflexivity|]). right. now split.
Qed.

(** X3: a [message] event on a socket with a session.  When the payload
    is an object, the handler returns: the message is answered with
    exactly one emitted assistant message and is itself appended to the
    history, even when the store did not take it; the answer is appended
    after it, except on the outer catch, whose apology is sent but not
    recorded.  When the payload is [null] or [undefined], the handler
    throws a TypeError before it does anything: nothing is answered. *)
Theorem message_extends_history env sid payload w s :
  userSessions w !! sid = Some s ->
  match on_message_event env sid payload w with
  | Ok (w', events) =>
      exists message s' reply,
        payload = Some message /\
        userSessions w' !! sid = Some s' /\
        userId s' = userId s /\
        replies events = [msg_content reply] /\
        last events = Some (EmitMessage reply) /\
        msg_sender reply = "assistant" /\
        msg_userId reply = userId s /\
        (conversationHistory s' = conversationHistory s ++ [message; reply] \/
         (conversationHistory s' = conversationHistory s ++ [message] /\
          msg_content reply = processing_error_text))
  | Throw e => payload = None /\ e = TypeError
  end.
Proof.
  intros Hs. destruct payload as [message|]; simpl; [|split; reflexivity].
  destruct (on_message_replies env sid message w s Hs) as (s' & reply & Hreplied).
  destruct (on_message env sid message w) as [w' events].
  exists message, s', reply. split; [reflexivity | exact Hreplied].
Qed.

Lemma message_extends_history_witness :
  (exists w' events message s' reply,
     on_message_event
       (Sample.env (Replied (Some Sample.refund)) (NoResponse "") "2024-05-01T10:01:00.000Z")
       "s1" (Some (Sample.said "2024-05-01T10:00:59.000Z" "refund me")) Sample.world
     = Ok (w', events) /\
     userSessions w' !! "s1" = Some s' /\
     replies events = [msg_content reply] /\
     conversationHistory s' = conversationHistory Sample.session ++ [message; reply]) /\
  on_message_event
    (Sample.env (Replied (Some Sample.refund)) (NoResponse "") "2024-05-01T10:01:00.000Z")
    "s1" None Sample.world
  = Throw TypeError.
Proof.
  split.
  - pose proof (message_extends_history
                  (Sample.env (Replied (Some Sample.refund)) (NoResponse "")
                     "2024-05-01T10:01:00.000Z")
                  "s1" (Some (Sample.said "2024-05-01T10:00:59.000Z" "refund me"))
                  Sample.world Sample.session eq_refl) as Hanswered.
    destruct (on_message_event
                (Sample.env (Replied (Some Sample.refund)) (NoResponse "")
                   "2024-05-01T10:01:00.000Z")
                "s1" (Some (Sample.said "2024-05-01T10:00:59.000Z" "refund me"))
                Sample.world) as [[w' events]|e] eqn:Hevent.
    + destruct Hanswered
        as (message & s' & reply & _ & Hs & _ & Hreplies & _ & _ & _ & Hhistory).
      exists w', events, message, s', reply.
      split; [reflexivity|]. split; [exact Hs|]. split; [exact Hreplies|].
      destruct Hhistory as [Hboth | [_ Herr]]; [exact Hboth|].
      exfalso. injection Hevent as _ <-. rewrite Herr in Hreplies.
      discriminate Hreplies.
    + destruct Hanswered as [Hnone _]. discriminate Hnone.
  - reflexivity.
Defined.

Lemma saved_container env message st :
  st_container (saved env message st)
  = match st_container st with
    | Some docs => Some (docs ++ if db env (st_requests st) then [message] else [])
    | None => None
    end.
Proof.
  unfold saved, saveMessage. destruct (st_container st) as [docs|] eqn:Hc; [|exact Hc].
  destruct (db env (st_requests st)); simpl; [reflexivity | now rewrite app_nil_r].
Qed.

(** X4: no input ever removes or rewrites a stored document or sets up a
    missing container: an initialised store is extended by at most two
    messages per input (none on disconnect), and a store that is not
    initialised stays so. *)
Theorem step_only_appends_to_store env i w :
  match container w with
  | Some docs =>
      exists added,
        container (fst (step env i w)) = Some (docs ++ added) /\
        length added <= 2 /\
        (forall sid, i = Disconnect sid -> added = [])
  | None => container (fst (step env i w)) = None
  end.
Proof.
  destruct i as [sid uid | sid message | sid]; cbn [step].
  - unfold on_identify, identify_body, finish, start. run_monad.
    unfold getConversationHistory, saveMessage. simpl.
    destruct (container w) as [docs|]; simpl; [|reflexivity].
    destruct (db env 0); simpl;
      repeat match goal with
             | |- context [if ?b then _ else _] => destruct b; simpl
             end;
      first [ exists [assistant_message env uid welcome_text];
              split; [reflexivity | split; [simpl; lia | discriminate]]
            | exists []; rewrite app_nil_r;
              split; [reflexivity | split; [simpl; lia | discriminate]] ].
  - destruct (userSessions w !! sid) as [s|] eqn:Hs.
    + assert (Hfirst : st_container (received env message (start s w))
                       = match container w with
                         | Some docs => Some (docs ++ if db env 0 then [message] else [])
                         | None => None
                         end).
      { unfold received. simpl. now rewrite saved_container. }
      destruct (on_message_turn env sid message w s Hs)
        as [(intent & content & st2 & _ & Ht & ->) | ->].
      * destruct (Turn_frame _ _ _ Ht) as (Hc & _).
        unfold finish, answered. simpl. rewrite saved_container. simpl.
        rewrite Hc, Hfirst. destruct (container w) as [docs|]; [|reflexivity].
        eexists. rewrite <- app_assoc. split; [reflexivity|].
        split; [|discriminate].
        rewrite length_app. destruct (db env 0); destruct (db env _); simpl; lia.
      * unfold finish, apologised. simpl. rewrite saved_container. simpl.
        destruct (container w) as [docs|]; [|reflexivity].
        eexists. split; [reflexivity|]. split; [|discriminate].
        destruct (db env 0); simpl; lia.
    + unfold on_message. rewrite Hs. simpl.
      destruct (container w) as [docs|]; [|reflexivity].
      exists []. rewrite app_nil_r. split; [reflexivity|]. split; [simpl; lia | discriminate].
  - simpl. destruct (container w) as [docs|]; [|reflexivity].
    exists []. rewrite app_nil_r. split; [reflexivity|]. split; [simpl; lia | reflexivity].
Qed.

(** ** A reply that parses to [null] *)

Lemma detectIntent_null env af st :
  openai env = true ->
  classifier env = Replied (Some JNull) ->
  detectIntent env af st = (Ok (if truthy af then fallback_intent else JNull), st).
Proof.
  intros Hc Hr. unfold detectIntent, try_catch, throw, ret, bind, lift.
  rewrite Hc, Hr. simpl. now destruct (truthy af).
Qed.

(** X5: when the classifier's reply parses to [null], a session with an
    active flow gets the classifier apology as a normal, recorded answer,
    while a session without one gets the handler's "error processing your
    request" message, which is sent but not added to the history; either
    way the flow state is unchanged and no adapter is called. *)
Theorem null_reply_is_apologised env sid message w s :
  userSessions w !! sid = Some s ->
  openai env = true ->
  classifier env = Replied (Some JNull) ->
  exists s',
    userSessions (fst (on_message env sid message w)) !! sid = Some s' /\
    activeFlow s' = activeFlow s /\
    currentStep s' = currentStep s /\
    collectedParams s' = collectedParams s /\
    adapter_calls (snd (on_message env sid message w)) = [] /\
    if truthy (activeFlow s) then
      replies (snd (on_message env sid message w)) = [JStr classifier_apology] /\
      conversationHistory s'
      = conversationHistory s
        ++ [message; assistant_message env (userId s) (JStr classifier_apology)]
    else
      replies (snd (on_message env sid message w)) = [processing_error_text] /\
      conversationHistory s' = conversationHistory s ++ [message].
Proof.
  intros Hs Hc Hr.
  set (st1 := received env message (start s w)).
  assert (Haf : activeFlow (st_session st1) = activeFlow s)
    by (unfold st1; now rewrite received_session).
  pose proof (detectIntent_null env (activeFlow (st_session st1)) st1 Hc Hr) as Hd.
  rewrite Haf in Hd at 2. unfold on_message. rewrite Hs.
  destruct (truthy (activeFlow s)).
  - rewrite (message_body_answered env message (start s w) fallback_intent
               (JStr classifier_apology) st1 Hd
               (respond_chat env fallback_intent st1 (JStr "CHAT") eq_refl
                  (or_introl eq_refl))).
    cbn [snd]. rewrite finish_lookup, finish_events. eexists. split; [reflexivity|].
    rewrite answered_session, answered_trace. unfold st1. simpl.
    rewrite ?saved_session, ?saved_trace. simpl.
    repeat split. now rewrite <- app_assoc.
  - rewrite (message_body_apologised env message (start s w) JNull TypeError st1 Hd
               (respond_null env JNull st1 TypeError eq_refl)).
    cbn [snd]. rewrite finish_lookup, finish_events. unfold apologised, st1. simpl.
    rewrite ?saved_session, ?saved_trace. simpl.
    eexists. split; [reflexivity|]. repeat split.
Qed.

Lemma null_reply_is_apologised_witness :
  replies
    (snd (on_message
            (Sample.env (Replied (Some JNull)) (NoResponse "") "2024-05-01T10:01:00.000Z")
            "s1" (Sample.said "2024-05-01T10:00:59.000Z" "hello") Sample.world))
  = [processing_error_text].
Proof.
  destruct (null_reply_is_apologised
              (Sample.env (Replied (Some JNull)) (NoResponse "") "2024-05-01T10:01:00.000Z")
              "s1" (Sample.said "2024-05-01T10:00:59.000Z" "hello")
              Sample.world Sample.session)
    as (s' & _ & _ & _ & _ & _ & Hreply).
  - reflexivity.
  - reflexivity.
  - reflexivity.
  - exact (proj1 Hreply).
Defined.

(** ** Identifying and disconnecting *)

(** X6: [identify] always leaves the socket with a fresh session of the
    given user, with no flow, no step and empty parameters, whose history
    is what the store returned followed by the welcome message, whatever
    session (and flow in progress) the socket had before; the [history]
    event is sent only when the store returned messages, and the welcome
    message is sent last. *)
Theorem identify_starts_afresh env sid uid w :
  let welcome := assistant_message env uid welcome_text in
  userSessions (fst (on_identify env sid uid w)) !! sid
  = Some (MkSession uid JNull JNull empty_object (hydrated env uid w ++ [welcome])) /\
  snd (on_identify env sid uid w)
  = match hydrated env uid w with
    | [] => [EmitMessage welcome]
    | _ => [EmitHistory (hydrated env uid w); EmitMessage welcome]
    end.
Proof.
  intros welcome. unfold on_identify. rewrite finish_lookup, finish_events.
  unfold hydrated, identify_body, start. run_monad.
  unfold getConversationHistory, saveMessage. simpl.
  destruct (container w) as [docs|]; simpl; [|split; reflexivity].
  destruct (db env 0); simpl; [|destruct (db env 1); split; reflexivity].
  destruct (reverse (query_recent uid default_limit docs)) as [|m h]; simpl;
    destruct (db env 1); split; reflexivity.
Qed.

(** X7: after [disconnect] the socket has no session and the store is as
    it was.  A next [message] event on that socket whose payload is an
    object is dropped: nothing is sent, nothing is stored, no adapter is
    called, and the world stays as the disconnect left it.  One whose
    payload is [null] or [undefined] is not dropped: the handler throws
    at its first statement, before it looks for the session. *)
Theorem message_after_disconnect_is_dropped env sid payload w :
  let closed := fst (on_disconnect sid w) in
  userSessions closed !! sid = None /\
  container closed = container w /\
  on_message_event env sid payload closed
  = match payload with
    | Some message => Ok (closed, [])
    | None => Throw TypeError
    end.
Proof.
  simpl. split; [apply lookup_delete_eq|]. split; [reflexivity|].
  destruct payload as [message|]; simpl; [|reflexivity].
  unfold on_message. simpl. now rewrite lookup_delete_eq.
Qed.

(** ** The conversation does not depend on the store *)

Lemma alike_ret {A} (a : A) : alike (ret a) (ret a).
Proof. intros st st' H. now split. Qed.

Lemma alike_throw {A} (e : JsError) : alike (@throw A e) (throw e).
Proof. intros st st' H. now split. Qed.

Lemma alike_lift {A} (x : Exc A) : alike (lift x) (lift x).
Proof. intros st st' H. now split. Qed.

Lemma alike_bind {A B} (m m' : M A) (k k' : A -> M B) :
  alike m m' -> (forall a, alike (k a) (k' a)) -> alike (bind m k) (bind m' k').
Proof.
  intros Hm Hk st st' H. unfold bind. destruct (Hm st st' H) as [Hres Hst].
  destruct (m st) as [[a|e] st1], (m' st') as [[a'|e'] st1']; simpl in *;
    try discriminate.
  - injection Hres as <-. now apply Hk.
  - injection Hres as <-. split; [reflexivity | exact Hst].
Qed.

Lemma alike_try {A} (m m' : M A) (h h' : JsError -> M A) :
  alike m m' -> (forall e, alike (h e) (h' e)) -> alike (try_catch m h) (try_catch m' h').
Proof.
  intros Hm Hh st st' H. unfold try_catch. destruct (Hm st st' H) as [Hres Hst].
  destruct (m st) as [[a|e] st1], (m' st') as [[a'|e'] st1']; simpl in *;
    try discriminate.
  - split; [exact Hres | exact Hst].
  - injection Hres as <-. now apply Hh.
Qed.

Lemma alike_log (e : Event) : alike (log e) (log e).
Proof.
  intros st st' (Hs & Ht & Hg). unfold log, logged, same_talk. simpl.
  now rewrite Hs, Ht, Hg.
Qed.

Lemma alike_update (f : Session -> Session) : alike (update_session f) (update_session f).
Proof.
  intros st st' (Hs & Ht & Hg). unfold update_session, with_session, same_talk. simpl.
  now rewrite Hs, Ht, Hg.
Qed.

Lemma alike_read : alike read_session read_session.
Proof.
  intros st st' (Hs & Ht & Hg). unfold read_session, same_talk. simpl.
  now rewrite Hs, Ht, Hg.
Qed.

Lemma alike_generate env p : alike (generateResponse env p) (generateResponse env p).
Proof.
  intros st st' (Hs & Ht & Hg). unfold generateResponse, generated, same_talk. simpl.
  now rewrite Hs, Ht, Hg.
Qed.

(** [saveMessage] whose result is dropped, under any answers of the
    store. *)
Lemma alike_save {A} env env' message (k k' : M A) :
  alike k k' ->
  alike (saveMessage env message ;;; k) (saveMessage env' message ;;; k').
Proof.
  intros Hk st st' (Hs & Ht & Hg). unfold bind, saveMessage.
  destruct (st_container st) as [docs|], (st_container st') as [docs'|];
    try destruct (db env (st_requests st));
    try destruct (db env' (st_requests st'));
    apply Hk; unfold same_talk; simpl; auto.
Qed.

Ltac alike_step :=
  first
    [ apply alike_ret | apply alike_throw | apply alike_lift | apply alike_log
    | apply alike_update | apply alike_read | apply alike_generate
    | apply alike_bind; [|intros ?] | apply alike_try; [|intros ?]
    | match goal with
      | |- alike (match ?x with _ => _ end) _ => destruct x
      end ].

Lemma alike_respond env intent : alike (respond env intent) (respond env intent).
Proof.
  unfold respond, continue_flow, complete_flow, start_flow, reset_flow,
    searchFlights, bookTicket, checkIn, ensureAuthenticated, request.
  repeat alike_step.
Qed.

Lemma alike_message_body env d message :
  alike (message_body (with_db d env) message) (message_body env message).
Proof.
  unfold message_body.
  change (detectIntent (with_db d env)) with (detectIntent env).
  change (respond (with_db d env)) with (respond env).
  change (assistant_message (with_db d env)) with (assistant_message env).
  apply alike_bind; [|intros _].
  - apply alike_try; [|intros ?; apply alike_ret].
    apply alike_save. apply alike_update.
  - apply alike_try; [|intros ?; repeat alike_step].
    apply alike_bind; [apply alike_read | intros session].
    apply alike_bind; [|intros intent].
    + intros st st' H. destruct (detectIntent_returns env (activeFlow session) st) as [i Hi].
      destruct (detectIntent_returns env (activeFlow session) st') as [i' Hi'].
      rewrite Hi, Hi'. simpl. split; [|exact H].
      pose proof Hi as Hi2.
      unfold detectIntent, try_catch, throw, ret, bind, lift in Hi, Hi'.
      destruct (openai env); simpl in Hi, Hi'; [|congruence].
      destruct (classifier env) as [e|[parsed|]]; simpl in Hi, Hi'; try congruence.
      destruct (truthy (activeFlow session)); simpl in Hi, Hi'; [|congruence].
      destruct (get parsed "action"); simpl in Hi, Hi'; [|congruence].
      destruct (is_str a "CONTINUE_FLOW"); simpl in Hi, Hi'; congruence.
    + apply alike_bind; [apply alike_respond | intros content].
      apply alike_bind; [apply alike_log | intros _].
      apply alike_bind; [apply alike_update | intros _].
      apply alike_try; [|intros ?; apply alike_ret].
      apply alike_save. apply alike_ret.
Qed.

(** X8: the store never shapes the conversation: with any other answers
    from Cosmos DB and any other contents of the container (or none), a
    message gets the same events (adapter calls and emitted messages
    included) and leaves the same sessions. *)
Theorem conversation_ignores_store env d c sid message w :
  let w' := MkWorld (userSessions w) c in
  userSessions (fst (on_message (with_db d env) sid message w'))
  = userSessions (fst (on_message env sid message w)) /\
  snd (on_message (with_db d env) sid message w')
  = snd (on_message env sid message w).
Proof.
  intros w'. unfold on_message. simpl.
  destruct (userSessions w !! sid) as [s|]; [|split; reflexivity].
  destruct (alike_message_body env d message (start s w') (start s w))
    as (_ & Hs & Ht & _); [repeat split|].
  unfold finish. simpl. now rewrite Hs, Ht.
Qed.

(** * Properties of the services *)

(** ** The adapters *)

(** X9: [bookTicket] never throws: a response gives the success envelope
    with the response's data and status, a rejection the error envelope
    with the backend's status and body, a request without response the
    failed envelope with the error's message; and ticket data that is
    [null] or [undefined] gives the failed envelope whatever the backend
    would have answered.  Each call is one adapter call in the trace. *)
Theorem bookTicket_returns_envelope env ticketData st :
  bookTicket env ticketData st
  = (Ok (if is_nullish ticketData then Failed (err_message TypeError)
         else outcome_envelope (http env)),
     logged (Adapter BUY_TICKET ticketData) st).
Proof.
  unfold bookTicket, ensureAuthenticated, request, envelope, outcome_envelope,
    try_catch, throw, ret, bind, lift, log.
  destruct ticketData; simpl; try reflexivity; destruct (http env); reflexivity.
Qed.

(** X10: [checkIn] never throws and reads its data with optional chaining:
    even with [null] or [undefined] check-in data the request is sent, and
    the envelope is decided by the backend's outcome alone. *)
Theorem checkIn_returns_envelope env checkInData st :
  checkIn env checkInData st
  = (Ok (outcome_envelope (http env)), logged (Adapter CHECK_IN checkInData) st) /\
  (forall status data,
     http env = Responded status data ->
     fst (checkIn env JUndefined st) = Ok (Succeeded data status) /\
     fst (bookTicket env JUndefined st) = Ok (Failed (err_message TypeError))).
Proof.
  split.
  - unfold checkIn, ensureAuthenticated, request, envelope, outcome_envelope,
      try_catch, throw, ret, bind, lift, log.
    destruct (http env); reflexivity.
  - intros status data Hh.
    unfold checkIn, bookTicket, ensureAuthenticated, request, envelope,
      try_catch, throw, ret, bind, lift, log.
    rewrite Hh. split; reflexivity.
Qed.

(** X11: [searchFlights] returns exactly the backend's response data, and
    only when its parameters are an object (not [null] or [undefined]) and
    the backend responded; in every other case it throws an error whose
    message starts with "Failed to search flights: " and which carries no
    [response], so the backend's status and body are lost to the caller. *)
Theorem searchFlights_returns_or_rethrows env params st :
  match fst (searchFlights env params st) with
  | Ok data =>
      is_nullish params = false /\ exists status, http env = Responded status data
  | Throw e =>
      err_response e = None /\
      (exists cause, err_message e = String.append "Failed to search flights: " cause) /\
      (is_nullish params = true \/ forall status data, http env <> Responded status data)
  end.
Proof.
  unfold searchFlights, request, try_catch, throw, ret, bind, lift, log.
  destruct params; simpl;
    try (split; [reflexivity | split; [eexists; reflexivity | now left]]);
    destruct (http env) eqn:Hh; simpl;
    try (split; [reflexivity | eexists; reflexivity]);
    (split; [reflexivity | split; [eexists; reflexivity | right; discriminate]]).
Qed.

(** ** The classifier *)

(** X12: [detectIntent] never throws and never changes the state: it
    returns the parsed reply as it is, or the CHAT fallback with the
    apology when there is no client, the request fails, the reply does not
    parse, or the reply parses to [null] while a flow is active (reading
    [action] off [null] throws inside the parse guard); with no flow
    active a [null] reply is returned as [null]. *)
Theorem detectIntent_never_throws env af st :
  exists intent,
    detectIntent env af st = (Ok intent, st) /\
    (intent = fallback_intent \/ classifier env = Replied (Some intent)) /\
    (classifier_fails env -> intent = fallback_intent) /\
    (forall parsed,
       openai env = true -> classifier env = Replied (Some parsed) ->
       intent = if truthy af && is_nullish parsed then fallback_intent else parsed).
Proof.
  destruct (detectIntent_returns env af st) as [intent Hd].
  exists intent. split; [exact Hd|]. split; [eapply detectIntent_origin; exact Hd|].
  split.
  - intros Hfail. rewrite (detectIntent_fallback env af st Hfail) in Hd. congruence.
  - intros parsed Hc Hr.
    unfold detectIntent, try_catch, throw, ret, bind, lift, processFlowStep in Hd.
    rewrite Hc, Hr in Hd. simpl in Hd.
    destruct (truthy af); simpl in *; [|congruence].
    destruct parsed; simpl in *; try congruence;
      match type of Hd with
      | context [if ?b then _ else _] => destruct b
      end; congruence.
Qed.

(** ** The transcript store *)

Lemma ltb_asym (t u : string) : String.ltb t u = true -> String.ltb u t = false.
Proof.
  unfold String.ltb. rewrite (String.compare_antisym u t).
  destruct (String.compare t u); simpl; congruence.
Qed.

Lemma insert_desc_Permutation (m : Message) (sorted : list Message) :
  insert_desc m sorted ≡ₚ m :: sorted.
Proof.
  induction sorted as [|x rest IH]; simpl; [reflexivity|].
  destruct (String.ltb (msg_timestamp m) (msg_timestamp x)); [|reflexivity].
  rewrite IH. apply Permutation_swap.
Qed.

Lemma order_desc_Permutation (docs : list Message) :
  order_by_timestamp_desc docs ≡ₚ docs.
Proof.
  unfold order_by_timestamp_desc. induction docs as [|m rest IH]; simpl; [reflexivity|].
  now rewrite insert_desc_Permutation, IH.
Qed.

Lemma insert_desc_HdRel (x m : Message) (sorted : list Message) :
  HdRel (flip not_after) x sorted ->
  flip not_after x m ->
  HdRel (flip not_after) x (insert_desc m sorted).
Proof.
  intros Hhd Hxm. destruct sorted as [|y rest]; simpl; [now constructor|].
  destruct (String.ltb (msg_timestamp m) (msg_timestamp y)); constructor;
    [now apply HdRel_inv in Hhd | exact Hxm].
Qed.

Lemma insert_desc_Sorted (m : Message) (sorted : list Message) :
  Sorted (flip not_after) sorted -> Sorted (flip not_after) (insert_desc m sorted).
Proof.
  induction 1 as [|x rest Hsorted IH Hhd]; simpl; [repeat constructor|].
  destruct (String.ltb (msg_timestamp m) (msg_timestamp x)) eqn:Hlt.
  - constructor; [exact IH|]. apply insert_desc_HdRel; [exact Hhd|].
    unfold flip, not_after. now apply ltb_asym.
  - constructor; [now constructor|]. constructor. exact Hlt.
Qed.

Lemma order_desc_Sorted (docs : list Message) :
  Sorted (flip not_after) (order_by_timestamp_desc docs).
Proof.
  unfold order_by_timestamp_desc. induction docs as [|m rest IH]; simpl;
    [constructor | now apply insert_desc_Sorted].
Qed.

Lemma Sorted_take {A} (R : relation A) (n : nat) (l : list A) :
  Sorted R l -> Sorted R (take n l).
Proof.
  intros Hs. revert n. induction Hs as [|x l Hs IH Hhd]; intros [|n]; simpl;
    try constructor; [apply IH|].
  destruct Hhd; destruct n; simpl; constructor. assumption.
Qed.

(** X13: [getConversationHistory] never throws; what it returns has at
    most [limit] messages, all of the asked user and all from the
    container, ordered so that no message comes before an earlier one,
    without duplicates when the container has none; and it is empty when
    the container is not initialised or the query fails. *)
Theorem history_is_recent_and_ordered env uid limit st :
  exists h,
    fst (getConversationHistory env uid limit st) = Ok h /\
    length h <= limit /\
    Sorted not_after h /\
    Forall (fun m => msg_userId m = uid) h /\
    (forall docs, st_container st = Some docs ->
       h ⊆ docs /\ (NoDup docs -> NoDup h)) /\
    (st_container st = None \/ db env (st_requests st) = false -> h = []).
Proof.
  unfold getConversationHistory.
  destruct (st_container st) as [docs|] eqn:Hc.
  - destruct (db env (st_requests st)) eqn:Hdb; simpl.
    + exists (reverse (query_recent uid limit docs)). unfold query_recent.
      split; [reflexivity|]. split.
      { rewrite length_reverse. apply firstn_le_length. }
      split.
      { change not_after with (flip (flip not_after)). apply Sorted_reverse.
        apply Sorted_take, order_desc_Sorted. }
      assert (Hsub : forall m,
                 m ∈ reverse (take limit (order_by_timestamp_desc
                                            (filter (λ c, msg_userId c = uid) docs))) ->
                 msg_userId m = uid /\ m ∈ docs).
      { intros m Hm. rewrite elem_of_reverse in Hm.
        apply (subseteq_take limit) in Hm. rewrite order_desc_Permutation in Hm.
        now apply list_elem_of_filter in Hm. }
      split; [apply Forall_forall; intros m Hm; now apply Hsub|].
      split.
      * intros docs' [= <-]. split; [intros m Hm; now apply Hsub|].
        intros Hnd. rewrite reverse_Permutation.
        eapply sublist_NoDup; [|apply sublist_take].
        rewrite order_desc_Permutation. now apply NoDup_filter.
      * intros [Hnone | Hfail]; congruence.
    + exists []. repeat split; simpl; try lia; try constructor.
      intros m Hm. inversion Hm.
  - exists []. repeat split; simpl; try lia; try constructor; discriminate.
Qed.

Lemma order_desc_newest (docs : list Message) (m : Message) :
  Forall (fun c => String.ltb (msg_timestamp c) (msg_timestamp m) = true) docs ->
  order_by_timestamp_desc (docs ++ [m]) = m :: order_by_timestamp_desc docs.
Proof.
  unfold order_by_timestamp_desc. rewrite foldr_app. simpl.
  induction 1 as [|c rest Hc Hrest IH]; simpl; [reflexivity|].
  rewrite IH. simpl. now rewrite Hc.
Qed.

(** X14: a message that the store takes, newer than everything stored for
    its user, is what the next history query of that user returns last,
    after the most recent messages from before: saving and reading back
    loses nothing and keeps the order. *)
Theorem saved_message_ends_history env message st docs limit :
  st_container st = Some docs ->
  db env (st_requests st) = true ->
  db env (S (st_requests st)) = true ->
  Forall (fun c => String.ltb (msg_timestamp c) (msg_timestamp message) = true)
         (stored_for (msg_userId message) docs) ->
  fst ((saveMessage env message ;;;
        getConversationHistory env (msg_userId message) (S limit)) st)
  = Ok (reverse (query_recent (msg_userId message) limit docs) ++ [message]).
Proof.
  intros Hc Hdb Hdb' Hnew.
  unfold bind, saveMessage, getConversationHistory, query_recent.
  rewrite Hc, Hdb. simpl. rewrite Hdb'. simpl.
  fold (stored_for (msg_userId message) (docs ++ [message])).
  fold (stored_for (msg_userId message) docs).
  rewrite stored_for_snoc by reflexivity.
  rewrite (order_desc_newest _ _ Hnew). simpl. now rewrite reverse_cons.
Qed.

Lemma saved_message_ends_history_witness :
  fst ((saveMessage (Sample.env (Replied None) (NoResponse "") "2024-05-01T10:03:00.000Z")
          (Sample.said "2024-05-01T10:02:00.000Z" "one more thing") ;;;
        getConversationHistory
          (Sample.env (Replied None) (NoResponse "") "2024-05-01T10:03:00.000Z")
          "u1" 2)
         (start Reopen.session Reopen.world))
  = Ok [MkMessage "2024-05-01T10:01:00.000Z" (JStr "Hello!")
          "2024-05-01T10:01:00.000Z" "assistant" "u1";
        Sample.said "2024-05-01T10:02:00.000Z" "one more thing"].
Proof.
  apply (saved_message_ends_history
           (Sample.env (Replied None) (NoResponse "") "2024-05-01T10:03:00.000Z")
           (Sample.said "2024-05-01T10:02:00.000Z" "one more thing")
           (start Reopen.session Reopen.world) Reopen.history 1).
  - reflexivity.
  - reflexivity.
  - reflexivity.
  - repeat constructor.
Defined.

(** ** Deleting a user's history *)

Lemma delete_item_sublist uid id docs : delete_item uid id docs `sublist_of` docs.
Proof. apply sublist_filter. Qed.

Lemma delete_each_sublist env uid ids n docs :
  delete_each env uid ids n docs `sublist_of` docs.
Proof.
  revert n docs. induction ids as [|id rest IH]; intros n docs; simpl; [reflexivity|].
  etransitivity; [apply IH|]. destruct (db env n); [apply delete_item_sublist | reflexivity].
Qed.

Lemma delete_item_others uid uid' id docs :
  uid' <> uid -> stored_for uid' (delete_item uid id docs) = stored_for uid' docs.
Proof.
  intros Hne. unfold stored_for, delete_item. apply list_filter_filter_l.
  intros c Hc [Hu _]. congruence.
Qed.

Lemma delete_each_others env uid uid' ids n docs :
  uid' <> uid -> stored_for uid' (delete_each env uid ids n docs) = stored_for uid' docs.
Proof.
  intros Hne. revert n docs. induction ids as [|id rest IH]; intros n docs; simpl;
    [reflexivity|].
  rewrite IH. destruct (db env n); [now apply delete_item_others | reflexivity].
Qed.

Lemma delete_each_gone env uid ids n docs c :
  (forall k, db env k = true) ->
  c ∈ delete_each env uid ids n docs ->
  msg_userId c = uid -> msg_id c ∉ ids.
Proof.
  intros Hdb. revert n docs. induction ids as [|id rest IH]; intros n docs Hin Hu; simpl in *.
  - apply not_elem_of_nil.
  - rewrite Hdb in Hin. intros Hid. apply elem_of_cons in Hid as [Hid | Hid].
    + pose proof (elem_of_sublist _ _ c Hin (delete_each_sublist env uid rest (S n) _))
        as Hc.
      apply list_elem_of_filter in Hc as [Hnot _]. apply Hnot. now split.
    + now apply (IH _ _ Hin Hu).
Qed.

Lemma delete_each_kept env uid ids n docs :
  (forall k, n <= k -> db env k = false) -> delete_each env uid ids n docs = docs.
Proof.
  revert n docs. induction ids as [|id rest IH]; intros n docs Hdb; simpl; [reflexivity|].
  rewrite (Hdb n) by lia. apply IH. intros k Hk. apply Hdb. lia.
Qed.

(** X15: [deleteConversationHistory] never throws and never touches the
    documents of another user, whatever fails; it only removes documents
    (what is left is a sublist of what was there), and it answers [false]
    exactly when the container is not initialised or the id query fails,
    leaving the documents as they were. *)
Theorem delete_spares_other_users env uid st :
  exists success,
    fst (deleteConversationHistory env uid st) = Ok success /\
    match st_container st with
    | Some docs =>
        exists docs',
          st_container (snd (deleteConversationHistory env uid st)) = Some docs' /\
          docs' `sublist_of` docs /\
          (forall uid', uid' <> uid -> stored_for uid' docs' = stored_for uid' docs) /\
          success = db env (st_requests st) /\
          (success = false -> docs' = docs)
    | None =>
        success = false /\
        st_container (snd (deleteConversationHistory env uid st)) = None
    end.
Proof.
  unfold deleteConversationHistory.
  destruct (st_container st) as [docs|] eqn:Hc;
    [|exists false; simpl; repeat split; exact Hc].
  destruct (db env (st_requests st)); simpl.
  - exists true. split; [reflexivity|]. eexists. split; [reflexivity|].
    split; [apply delete_each_sublist|].
    split; [intros uid' Hne; now apply delete_each_others|].
    split; [reflexivity | discriminate].
  - exists false. split; [reflexivity|]. exists docs. repeat split; reflexivity.
Qed.

(** X16: when the store answers every request, deleting a user's history
    answers [true] and leaves no document of that user. *)
Theorem delete_clears_the_user env uid st docs :
  st_container st = Some docs ->
  (forall k, db env k = true) ->
  exists docs',
    deleteConversationHistory env uid st
    = (Ok true, MkSt (st_session st) (Some docs') (st_trace st) (st_generated st)
                     (S (st_requests st) + length (query_ids uid docs))) /\
    stored_for uid docs' = [].
Proof.
  intros Hc Hdb. unfold deleteConversationHistory. rewrite Hc, Hdb.
  eexists. split; [reflexivity|].
  apply elem_of_nil_inv. intros c Hin.
  apply list_elem_of_filter in Hin as [Hu Hin].
  apply (delete_each_gone env uid _ _ _ c Hdb Hin Hu).
  unfold query_ids. apply list_elem_of_fmap. exists c. split; [reflexivity|].
  apply list_elem_of_filter. split; [exact Hu|].
  exact (elem_of_sublist _ _ c Hin (delete_each_sublist env uid _ _ docs)).
Qed.

Lemma delete_clears_the_user_witness :
  exists docs',
    deleteConversationHistory
      (Sample.env (Replied None) (NoResponse "") "2024-05-01T10:03:00.000Z") "u1"
      (start Reopen.session Reopen.world)
    = (Ok true, MkSt Reopen.session (Some docs') [] 0 4) /\
    stored_for "u1" docs' = [].
Proof.
  apply (delete_clears_the_user
           (Sample.env (Replied None) (NoResponse "") "2024-05-01T10:03:00.000Z") "u1"
           (start Reopen.session Reopen.world) Reopen.history).
  - reflexivity.
  - reflexivity.
Defined.

(** X17: deleting answers [true] as soon as the id query succeeds, even
    when every single delete fails and all documents stay where they
    were. *)
Theorem delete_reports_success_despite_failures env uid st docs :
  st_container st = Some docs ->
  db env (st_requests st) = true ->
  (forall k, st_requests st < k -> db env k = false) ->
  fst (deleteConversationHistory env uid st) = Ok true /\
  st_container (snd (deleteConversationHistory env uid st)) = Some docs.
Proof.
  intros Hc Hq Hfail. unfold deleteConversationHistory. rewrite Hc, Hq. simpl.
  split; [reflexivity|]. f_equal. apply delete_each_kept. intros k Hk. apply Hfail. lia.
Qed.

Lemma delete_reports_success_despite_failures_witness :
  fst (deleteConversationHistory
         (with_db (fun k => Nat.eqb k 0)
            (Sample.env (Replied None) (NoResponse "") "2024-05-01T10:03:00.000Z"))
         "u1" (start Reopen.session Reopen.world)) = Ok true /\
  st_container
    (snd (deleteConversationHistory
            (with_db (fun k => Nat.eqb k 0)
               (Sample.env (Replied None) (NoResponse "") "2024-05-01T10:03:00.000Z"))
            "u1" (start Reopen.session Reopen.world))) = Some Reopen.history.
Proof.
  apply (delete_reports_success_despite_failures
           (with_db (fun k => Nat.eqb k 0)
              (Sample.env (Replied None) (NoResponse "") "2024-05-01T10:03:00.000Z"))
           "u1" (start Reopen.session Reopen.world) Reopen.history).
  - reflexivity.
  - reflexivity.
  - intros [|k] Hk; [simpl in Hk; lia | reflexivity].
Defined.

(** * Properties of the REST endpoints *)

Lemma detectIntent_stateless env st :
  detectIntent env JUndefined st = (Ok (stateless_intent env), st).
Proof.
  unfold detectIntent, stateless_intent, try_catch, throw, ret, bind, lift.
  destruct (openai env); simpl; [|reflexivity].
  destruct (classifier env) as [e|[parsed|]]; reflexivity.
Qed.

(** With a readable [action] the chain of [/api/chat] returns, and leaves
    the store alone. *)
Lemma rest_respond_returns env intent st action :
  get intent "action" = Ok action ->
  exists content st',
    Rest.respond env intent st = (Ok content, st') /\
    st_container st' = st_container st /\
    st_requests st' = st_requests st.
Proof.
  intros Ha. unfold Rest.respond, bind at 1, lift. rewrite Ha.
  destruct (is_str action "CHAT"); [do 2 eexists; repeat split|].
  destruct (is_str action "QUERY_FLIGHT").
  { unfold try_catch, bind.
    destruct (searchFlights env (prop intent "parameters") st) as [[flights|e] st1] eqn:Hs;
      pose proof (searchFlights_state env (prop intent "parameters") st) as Hst;
      rewrite Hs in Hst; simpl in Hst; subst st1; do 2 eexists; repeat split. }
  destruct (is_str action "BUY_TICKET").
  { unfold try_catch, bind.
    destruct (bookTicket_returns env (prop intent "parameters") st) as [r ->].
    do 2 eexists; repeat split. }
  destruct (is_str action "CHECK_IN").
  { unfold try_catch, bind.
    destruct (checkIn_returns env (prop intent "parameters") st) as [r ->].
    do 2 eexists; repeat split. }
  do 2 eexists; repeat split.
Qed.

(** X18: [POST /api/chat] with a missing or empty [message] or [userId]
    answers 400 "Missing required fields": nothing is stored, no adapter
    is called and no reply is composed. *)
Theorem rest_chat_rejects_missing_fields env id2 iso2 message uid store :
  truthy message = false \/ Rest.no_user uid = true ->
  Rest.serve (Rest.chat env id2 iso2 message uid) store
  = (Ok (Rest.MkResponse 400 (Rest.ErrorBody "Missing required fields")), store, []).
Proof.
  intros Hmissing. unfold Rest.serve, Rest.chat, try_catch, ret.
  assert (Hguard : negb (truthy message) || Rest.no_user uid = true).
  { destruct Hmissing as [-> | ->]; [reflexivity | apply orb_true_r]. }
  now rewrite Hguard.
Qed.

Lemma rest_chat_rejects_missing_fields_witness :
  Rest.serve
    (Rest.chat (Sample.env (Replied None) (NoResponse "") "2024-05-01T10:03:00.000Z")
       "1714557780001" "2024-05-01T10:03:01.000Z" (JStr "") (Some "u1"))
    (Some Reopen.history)
  = (Ok (Rest.MkResponse 400 (Rest.ErrorBody "Missing required fields")),
     Some Reopen.history, []).
Proof.
  apply (rest_chat_rejects_missing_fields
           (Sample.env (Replied None) (NoResponse "") "2024-05-01T10:03:00.000Z")
           "1714557780001" "2024-05-01T10:03:01.000Z" (JStr "") (Some "u1")
           (Some Reopen.history)).
  left. reflexivity.
Defined.

(** X19: [POST /api/chat] with both fields never throws; it answers 500
    "Internal server error" exactly when the classifier's reply parses to
    [null], and then the user's message has already been stored (if the
    store took it) while no assistant message is, and no adapter was
    called; in every other case it answers 200. *)
Theorem rest_chat_fails_only_on_null_reply env id2 iso2 message uid store :
  truthy message = true ->
  Rest.no_user uid = false ->
  exists response store' events,
    Rest.serve (Rest.chat env id2 iso2 message uid) store
    = (Ok response, store', events) /\
    if is_nullish (stateless_intent env) then
      response = Rest.MkResponse 500 (Rest.ErrorBody "Internal server error") /\
      events = [] /\
      store' = match store with
               | Some docs =>
                   Some (docs ++ if db env 0
                                 then [MkMessage (now_ms env) message (now_iso env)
                                         "user" (Rest.user_of uid)]
                                 else [])
               | None => None
               end
    else Rest.status response = 200%Z.
Proof.
  intros Hm Hu. unfold Rest.serve, Rest.chat, try_catch at 1.
  rewrite Hm, Hu. change (negb true || false) with false. cbv iota.
  set (userMessage := MkMessage (now_ms env) message (now_iso env) "user" (Rest.user_of uid)).
  set (st0 := MkSt (new_session "") store [] 0 0).
  unfold bind at 1.
  destruct (saveMessage_returns env userMessage st0) as [item ->].
  unfold bind at 1.
  set (st1 := saved env userMessage st0).
  destruct (getConversationHistory env (Rest.user_of uid) default_limit st1)
    as [[history|e] st2] eqn:Hh.
  2:{ exfalso. unfold getConversationHistory in Hh.
      destruct (st_container st1); [destruct (db env (st_requests st1))|]; discriminate. }
  assert (Hst2 : st_container st2 = st_container st1 /\ st_trace st2 = st_trace st1).
  { unfold getConversationHistory in Hh.
    destruct (st_container st1) eqn:Hc; [destruct (db env (st_requests st1))|];
      injection Hh as _ <-; simpl; auto. }
  destruct Hst2 as [Hc2 Ht2].
  unfold bind at 1. rewrite detectIntent_stateless.
  unfold bind at 1.
  destruct (get (stateless_intent env) "action") as [action|e] eqn:Ha.
  - destruct (rest_respond_returns env _ st2 action Ha) as (content & st3 & -> & _ & _).
    unfold bind at 1.
    destruct (saveMessage_returns env (MkMessage id2 content iso2 "bot" (Rest.user_of uid)) st3)
      as [item' ->].
    unfold ret. do 3 eexists. split; [reflexivity|].
    destruct (stateless_intent env); try discriminate Ha; reflexivity.
  - assert (Hthrow : Rest.respond env (stateless_intent env) st2 = (Throw e, st2))
      by (unfold Rest.respond, bind, lift; now rewrite Ha).
    rewrite Hthrow. unfold ret. do 3 eexists. split; [reflexivity|].
    destruct (stateless_intent env); try discriminate Ha; simpl;
      (split; [reflexivity|]); rewrite Ht2, Hc2; unfold st1;
      rewrite saved_trace, saved_container; simpl; split; reflexivity.
Qed.

Lemma rest_chat_fails_only_on_null_reply_witness :
  exists response store' events,
    Rest.serve
      (Rest.chat (Sample.env (Replied (Some JNull)) (NoResponse "") "2024-05-01T10:03:00.000Z")
         "1714557780001" "2024-05-01T10:03:01.000Z" (JStr "hello") (Some "u1"))
      (Some [])
    = (Ok response, store', events) /\
    Rest.status response = 500%Z /\
    store' = Some [MkMessage "2024-05-01T10:03:00.000Z" (JStr "hello")
                     "2024-05-01T10:03:00.000Z" "user" "u1"].
Proof.
  destruct (rest_chat_fails_only_on_null_reply
              (Sample.env (Replied (Some JNull)) (NoResponse "") "2024-05-01T10:03:00.000Z")
              "1714557780001" "2024-05-01T10:03:01.000Z" (JStr "hello") (Some "u1")
              (Some []))
    as (response & store' & events & Hserve & Hnull).
  - reflexivity.
  - reflexivity.
  - exists response, store', events. split; [exact Hserve|].
    simpl in Hnull. destruct Hnull as (-> & _ & ->). split; reflexivity.
Defined.

(** X20: [POST /api/chat] starts no flow.  For an intent whose action is
    none of [QUERY_FLIGHT], [BUY_TICKET] and [CHECK_IN] (a [START_*] or
    [CONTINUE_FLOW] action, say) it answers 200 without an adapter call and
    without asking the composer: [intent.response] itself on [CHAT],
    whatever it is, and the fixed refusal on everything else. *)
Theorem rest_chat_starts_no_flow env id2 iso2 message uid store action :
  truthy message = true ->
  Rest.no_user uid = false ->
  get (stateless_intent env) "action" = Ok action ->
  is_str action "QUERY_FLIGHT" = false ->
  is_str action "BUY_TICKET" = false ->
  is_str action "CHECK_IN" = false ->
  exists history store',
    let userMessage :=
      MkMessage (now_ms env) message (now_iso env) "user" (Rest.user_of uid) in
    let reply :=
      MkMessage id2
        (if is_str action "CHAT" then prop (stateless_intent env) "response"
         else Rest.unavailable_text)
        iso2 "bot" (Rest.user_of uid) in
    Rest.serve (Rest.chat env id2 iso2 message uid) store
    = (Ok (Rest.MkResponse 200 (Rest.ChatBody reply (history ++ [userMessage; reply]))),
       store', []).
Proof.
  intros Hm Hu Ha Hq Hb Hc. unfold Rest.serve, Rest.chat, try_catch at 1.
  rewrite Hm, Hu. change (negb true || false) with false. cbv iota.
  set (userMessage := MkMessage (now_ms env) message (now_iso env) "user" (Rest.user_of uid)).
  set (st0 := MkSt (new_session "") store [] 0 0).
  unfold bind at 1.
  destruct (saveMessage_returns env userMessage st0) as [item ->].
  unfold bind at 1.
  set (st1 := saved env userMessage st0).
  destruct (getConversationHistory env (Rest.user_of uid) default_limit st1)
    as [[history|e] st2] eqn:Hh.
  2:{ exfalso. unfold getConversationHistory in Hh.
      destruct (st_container st1); [destruct (db env (st_requests st1))|]; discriminate. }
  assert (Ht2 : st_trace st2 = []).
  { unfold getConversationHistory in Hh.
    destruct (st_container st1) eqn:Hc1; [destruct (db env (st_requests st1))|];
      injection Hh as _ <-; simpl; unfold st1; now rewrite ?saved_trace. }
  unfold bind at 1. rewrite detectIntent_stateless.
  unfold bind at 1.
  assert (Hrespond : Rest.respond env (stateless_intent env) st2
                     = (Ok (if is_str action "CHAT"
                            then prop (stateless_intent env) "response"
                            else Rest.unavailable_text), st2)).
  { unfold Rest.respond, bind, lift. rewrite Ha, Hq, Hb, Hc.
    destruct (is_str action "CHAT"); reflexivity. }
  rewrite Hrespond. unfold bind at 1.
  match goal with
  | |- context [saveMessage env ?m st2] =>
      destruct (saveMessage_returns env m st2) as [item' ->]
  end.
  unfold ret. exists history. eexists. cbv zeta.
  rewrite saved_trace, Ht2. reflexivity.
Qed.

Lemma rest_chat_starts_no_flow_witness :
  exists history store',
    Rest.serve
      (Rest.chat
         (Sample.env (Replied (Some (JObj [("action", JStr "START_BUY_TICKET")])))
            (NoResponse "") "2024-05-01T10:03:00.000Z")
         "1714557780001" "2024-05-01T10:03:01.000Z" (JStr "book a flight") (Some "u1"))
      (Some [])
    = (Ok (Rest.MkResponse 200
             (Rest.ChatBody
                (MkMessage "1714557780001" Rest.unavailable_text
                   "2024-05-01T10:03:01.000Z" "bot" "u1")
                (history ++
                 [MkMessage "2024-05-01T10:03:00.000Z" (JStr "book a flight")
                    "2024-05-01T10:03:00.000Z" "user" "u1";
                  MkMessage "1714557780001" Rest.unavailable_text
                    "2024-05-01T10:03:01.000Z" "bot" "u1"]))),
       store', []).
Proof.
  apply (rest_chat_starts_no_flow
           (Sample.env (Replied (Some (JObj [("action", JStr "START_BUY_TICKET")])))
              (NoResponse "") "2024-05-01T10:03:00.000Z")
           "1714557780001" "2024-05-01T10:03:01.000Z" (JStr "book a flight") (Some "u1")
           (Some []) (JStr "START_BUY_TICKET")).
  - reflexivity.
  - reflexivity.
  - reflexivity.
  - reflexivity.
  - reflexivity.
  - reflexivity.
Defined.

(** X21: when the store works and the user's message is newer than what is
    stored for the user, the [history] of the [POST /api/chat] response
    holds that message twice: the history is read after the message was
    saved, and the response appends the message again. *)
Theorem rest_chat_repeats_user_message env id2 iso2 message uid docs action :
  truthy message = true ->
  Rest.no_user uid = false ->
  db env 0 = true ->
  db env 1 = true ->
  Forall (fun c => String.ltb (msg_timestamp c) (now_iso env) = true)
         (stored_for (Rest.user_of uid) docs) ->
  get (stateless_intent env) "action" = Ok action ->
  exists reply store' events,
    let userMessage :=
      MkMessage (now_ms env) message (now_iso env) "user" (Rest.user_of uid) in
    Rest.serve (Rest.chat env id2 iso2 message uid) (Some docs)
    = (Ok (Rest.MkResponse 200
             (Rest.ChatBody reply
                (reverse (query_recent (Rest.user_of uid) 19 docs)
                 ++ [userMessage; userMessage; reply]))),
       store', events).
Proof.
  intros Hm Hu Hdb0 Hdb1 Hnew Ha. unfold Rest.serve, Rest.chat, try_catch at 1.
  rewrite Hm, Hu. change (negb true || false) with false. cbv iota.
  set (userMessage := MkMessage (now_ms env) message (now_iso env) "user" (Rest.user_of uid)).
  unfold bind at 1. unfold saveMessage at 1. simpl st_container. simpl st_requests.
  rewrite Hdb0. cbv iota beta.
  unfold bind at 1. unfold getConversationHistory at 1.
  simpl st_container. simpl st_requests. rewrite Hdb1. cbv iota beta zeta.
  unfold bind at 1. rewrite detectIntent_stateless.
  unfold bind at 1.
  match goal with
  | |- context [Rest.respond env (stateless_intent env) ?st] =>
      destruct (rest_respond_returns env _ st action Ha) as (content & st3 & -> & _ & _)
  end.
  unfold bind at 1.
  match goal with
  | |- context [saveMessage env ?m st3] =>
      destruct (saveMessage_returns env m st3) as [item' ->]
  end.
  unfold ret. do 3 eexists. cbv zeta.
  unfold query_recent, default_limit.
  fold (stored_for (Rest.user_of uid) (docs ++ [userMessage])).
  fold (stored_for (Rest.user_of uid) docs).
  rewrite stored_for_snoc by reflexivity.
  rewrite (order_desc_newest _ userMessage Hnew). simpl take.
  rewrite reverse_cons, <- app_assoc. reflexivity.
Qed.

Lemma rest_chat_repeats_user_message_witness :
  exists reply store' events,
    Rest.serve
      (Rest.chat
         (Sample.env (Replied (Some (JObj [("action", JStr "CHAT"); ("response", JStr "Hi")])))
            (NoResponse "") "2024-05-01T10:03:00.000Z")
         "1714557780001" "2024-05-01T10:03:01.000Z" (JStr "hello") (Some "u1"))
      (Some Reopen.history)
    = (Ok (Rest.MkResponse 200
             (Rest.ChatBody reply
                (reverse (query_recent "u1" 19 Reopen.history)
                 ++ [MkMessage "2024-05-01T10:03:00.000Z" (JStr "hello")
                       "2024-05-01T10:03:00.000Z" "user" "u1";
                     MkMessage "2024-05-01T10:03:00.000Z" (JStr "hello")
                       "2024-05-01T10:03:00.000Z" "user" "u1";
                     reply]))),
       store', events).
Proof.
  apply (rest_chat_repeats_user_message
           (Sample.env (Replied (Some (JObj [("action", JStr "CHAT"); ("response", JStr "Hi")])))
              (NoResponse "") "2024-05-01T10:03:00.000Z")
           "1714557780001" "2024-05-01T10:03:01.000Z" (JStr "hello") (Some "u1")
           Reopen.history (JStr "CHAT")).
  - reflexivity.
  - reflexivity.
  - reflexivity.
  - reflexivity.
  - repeat constructor.
  - reflexivity.
Defined.

(** X22: [GET /api/history] never answers 500 and changes nothing: it is
    400 without a [userId], and otherwise 200 with the result of the
    store's query in chronological order: at most twenty messages, all of
    that user, and none at all when the container is not initialised or
    the query fails. *)
Theorem rest_history_never_fails env uid store :
  exists response,
    Rest.serve (Rest.get_history env uid) store = (Ok response, store, []) /\
    if Rest.no_user uid
    then response = Rest.MkResponse 400 (Rest.ErrorBody "Missing userId parameter")
    else exists history,
        response = Rest.MkResponse 200 (Rest.HistoryBody history) /\
        history = match store with
                  | Some docs =>
                      if db env 0
                      then reverse (query_recent (Rest.user_of uid) 20 docs)
                      else []
                  | None => []
                  end /\
        length history <= 20 /\
        Forall (fun m => msg_userId m = Rest.user_of uid) history.
Proof.
  unfold Rest.serve, Rest.get_history, try_catch, bind, ret, getConversationHistory.
  destruct (Rest.no_user uid); simpl; [eexists; split; reflexivity|].
  destruct store as [docs|]; simpl.
  - destruct (db env 0); simpl.
    + eexists. split; [reflexivity|]. eexists. split; [reflexivity|].
      split; [reflexivity|]. split.
      * rewrite length_reverse. unfold query_recent, default_limit.
        rewrite length_take. lia.
      * apply Forall_reverse. unfold query_recent. apply Forall_take.
        rewrite order_desc_Permutation. apply Forall_forall.
        intros m Hin. now apply list_elem_of_filter in Hin as [Hu _].
    + eexists. split; [reflexivity|]. exists [].
      repeat split; simpl; [lia|constructor].
  - eexists. split; [reflexivity|]. exists [].
    repeat split; simpl; [lia|constructor].
Qed.

(** X23: [DELETE /api/history] answers 400 without a [userId], 200 when the
    store is there and answers the id query, and 500 "Failed to clear
    history" otherwise; the deletes themselves never change the status, and
    a request that is not answered 200 leaves the store as it was. *)
Theorem rest_delete_status env uid store :
  exists store',
    Rest.serve (Rest.delete_history env uid) store
    = (Ok (if Rest.no_user uid
           then Rest.MkResponse 400 (Rest.ErrorBody "Missing userId parameter")
           else if bool_decide (is_Some store) && db env 0
                then Rest.MkResponse 200 (Rest.MessageBody "History cleared successfully")
                else Rest.MkResponse 500 (Rest.ErrorBody "Failed to clear history")),
       store', []) /\
    (Rest.no_user uid || negb (bool_decide (is_Some store) && db env 0) = true ->
     store' = store).
Proof.
  unfold Rest.serve, Rest.delete_history, try_catch, bind, ret, deleteConversationHistory.
  destruct (Rest.no_user uid); simpl; [eexists; split; reflexivity|].
  destruct store as [docs|]; simpl; [|eexists; split; reflexivity].
  destruct (db env 0); simpl; eexists; (split; [reflexivity|]);
    [discriminate | reflexivity].
Qed.

(** * Properties of the cached token *)

Lemma store_token_coherent later data s :
  Auth.has_token data = true -> token_coherent (Auth.store_token later data s).
Proof.
  unfold Auth.has_token. intros [_ Htoken]%andb_true_iff. right. simpl.
  repeat split; [exact Htoken | eexists; reflexivity].
Qed.

Lemma requested_coherent s : token_coherent s -> token_coherent (Auth.requested s).
Proof. intros Hs. exact Hs. Qed.

Lemma auth_call_coherent s c : token_coherent s -> token_coherent (auth_call s c).
Proof.
  intros Hs. destruct c as [now later outcome | later outcome]; simpl.
  - unfold Auth.ensureAuthenticated. destruct (Auth.token_valid now s); [exact Hs|].
    destruct outcome as [status data | status data message | message]; simpl;
      try exact (requested_coherent s Hs).
    destruct (Auth.has_token data) eqn:Hdata; simpl;
      [now apply store_token_coherent | exact (requested_coherent s Hs)].
  - destruct outcome as [status data | status data message | message]; simpl;
      try exact (requested_coherent s Hs).
    destruct (Auth.has_token data) eqn:Hdata;
      [now apply store_token_coherent | exact (requested_coherent s Hs)].
Qed.

Lemma auth_call_token s c :
  match call_outcome c with
  | Responded status data =>
      if Auth.has_token data
      then same_token s (auth_call s c) \/
           (Auth.authToken (auth_call s c) = prop data "token" /\
            Auth.authorization (auth_call s c) = Some (prop data "token"))
      else same_token s (auth_call s c)
  | _ => same_token s (auth_call s c)
  end.
Proof.
  destruct c as [now later outcome | later outcome]; simpl.
  - unfold Auth.ensureAuthenticated.
    destruct outcome as [status data | status data message | message];
      [destruct (Auth.has_token data)|..];
      destruct (Auth.token_valid now s); simpl;
      first [ solve [repeat split] | solve [left; repeat split]
            | solve [right; repeat split] ].
  - destruct outcome as [status data | status data message | message];
      [destruct (Auth.has_token data) eqn:Hdata|..]; simpl; rewrite ?Hdata;
      first [ solve [repeat split] | solve [right; repeat split] ].
Qed.

(** X24: whatever sequence of [ensureAuthenticated] and [login] calls ran,
    and whatever the login endpoint answered, the cached token is either
    still unset or a truthy token with an expiry, and then the
    [Authorization] header of the client carries exactly that token.  A
    further call changes token, expiry or header only by storing the token
    of a response that has one: a login that fails or brings no token
    never clears or replaces a token already held. *)
Theorem token_state_stays_coherent (calls : list AuthCall) (c : AuthCall) :
  token_coherent (auth_after calls) /\
  token_coherent (auth_after (calls ++ [c])) /\
  match call_outcome c with
  | Responded status data =>
      if Auth.has_token data
      then same_token (auth_after calls) (auth_after (calls ++ [c])) \/
           (Auth.authToken (auth_after (calls ++ [c])) = prop data "token" /\
            Auth.authorization (auth_after (calls ++ [c])) = Some (prop data "token"))
      else same_token (auth_after calls) (auth_after (calls ++ [c]))
  | _ => same_token (auth_after calls) (auth_after (calls ++ [c]))
  end.
Proof.
  assert (Hall : forall l, token_coherent (auth_after l)).
  { unfold auth_after. induction l as [|c' l IH] using rev_ind.
    - left. repeat split.
    - rewrite foldl_app. simpl. now apply auth_call_coherent. }
  split; [apply Hall|]. split; [apply Hall|].
  unfold auth_after. rewrite foldl_app. simpl. apply auth_call_token.
Qed.

(** X25: after an [ensureAuthenticated] that had to log in and succeeded,
    a call within the hour that follows the login answers [true] without a
    request to the login endpoint, whatever that endpoint would answer;
    from the hour on it asks again. *)
Theorem token_is_reused_within_the_hour now later now' later' outcome outcome' s :
  Auth.token_valid now s = false ->
  fst (Auth.ensureAuthenticated now later outcome s) = true ->
  let s1 := snd (Auth.ensureAuthenticated now later outcome s) in
  let second := Auth.ensureAuthenticated now' later' outcome' s1 in
  Auth.logins s1 = S (Auth.logins s) /\
  ((now' < later + Auth.hour)%Z -> second = (true, s1)) /\
  ((later + Auth.hour <= now')%Z -> Auth.logins (snd second) = S (S (Auth.logins s))).
Proof.
  intros Hstale Hok. unfold Auth.ensureAuthenticated in *. rewrite Hstale in *.
  destruct outcome as [status data | status data message | message]; try discriminate Hok.
  destruct (Auth.has_token data) eqn:Hdata; [|discriminate Hok].
  cbn [snd fst]. cbv zeta.
  assert (Htoken : truthy (prop data "token") = true)
    by (unfold Auth.has_token in Hdata; now apply andb_true_iff in Hdata as [_ ?]).
  unfold Auth.token_valid at 1 2. simpl Auth.authToken. simpl Auth.tokenExpiry.
  rewrite Htoken. simpl andb.
  split; [reflexivity|]. split; intros Hwhen.
  - apply Z.ltb_lt in Hwhen. now rewrite Hwhen.
  - apply Z.ltb_ge in Hwhen. rewrite Hwhen.
    destruct outcome' as [status' data' | status' data' message' | message'];
      [destruct (Auth.has_token data')|..]; reflexivity.
Qed.

Lemma token_is_reused_within_the_hour_witness :
  Auth.logins
    (snd (Auth.ensureAuthenticated 1000 1200
            (Responded 200 (JObj [("token", JStr "abc")])) Auth.initial)) = 1 /\
  Auth.ensureAuthenticated 5000 5200 (NoResponse "timeout")
    (snd (Auth.ensureAuthenticated 1000 1200
            (Responded 200 (JObj [("token", JStr "abc")])) Auth.initial))
  = (true,
     Auth.MkState (JStr "abc") (Some 3601200%Z) (Some (JStr "abc")) 1).
Proof.
  destruct (token_is_reused_within_the_hour 1000 1200 5000 5200
              (Responded 200 (JObj [("token", JStr "abc")])) (NoResponse "timeout")
              Auth.initial)
    as (Hlogins & Hreuse & _).
  - reflexivity.
  - reflexivity.
  - split; [exact Hlogins|]. apply Hreuse. reflexivity.
Defined.

(** X26: an [ensureAuthenticated] that answers [false] has asked the login
    endpoint once and has left the token, its expiry and the header as they
    were; so a stale token stays in the header after a failed renewal. *)
Theorem failed_authentication_keeps_token now later outcome s :
  fst (Auth.ensureAuthenticated now later outcome s) = false ->
  let s' := snd (Auth.ensureAuthenticated now later outcome s) in
  Auth.token_valid now s = false /\
  Auth.logins s' = S (Auth.logins s) /\
  Auth.authToken s' = Auth.authToken s /\
  Auth.tokenExpiry s' = Auth.tokenExpiry s /\
  Auth.authorization s' = Auth.authorization s.
Proof.
  unfold Auth.ensureAuthenticated.
  destruct (Auth.token_valid now s); [discriminate|].
  destruct outcome as [status data | status data message | message];
    [destruct (Auth.has_token data); [discriminate|]|..]; intros _; repeat split.
Qed.

Lemma failed_authentication_keeps_token_witness :
  Auth.token_valid 9000000
    (Auth.MkState (JStr "abc") (Some 3601200%Z) (Some (JStr "abc")) 1) = false /\
  snd (Auth.ensureAuthenticated 9000000 9000100 (Rejected 401 JNull "Unauthorized")
         (Auth.MkState (JStr "abc") (Some 3601200%Z) (Some (JStr "abc")) 1))
  = Auth.MkState (JStr "abc") (Some 3601200%Z) (Some (JStr "abc")) 2.
Proof.
  destruct (failed_authentication_keeps_token 9000000 9000100
              (Rejected 401 JNull "Unauthorized")
              (Auth.MkState (JStr "abc") (Some 3601200%Z) (Some (JStr "abc")) 1))
    as (Hstale & _).
  - reflexivity.
  - split; [exact Hstale | reflexivity].
Defined.

(** X27: [login] returns the response's data, with or without a token,
    when the endpoint responds, and throws [Error('Failed to login')] on
    every other outcome; it leaves the token state exactly as an
    [ensureAuthenticated] without a valid token does on the same answer,
    which answers [true] exactly when the returned data has a token and
    [false] where [login] throws. *)
Theorem login_agrees_with_ensureAuthenticated now later outcome s :
  Auth.token_valid now s = false ->
  fst (Auth.login later outcome s)
  = match outcome with
    | Responded status data => Ok data
    | _ => Throw (MkError "Failed to login" None)
    end /\
  snd (Auth.login later outcome s) = snd (Auth.ensureAuthenticated now later outcome s) /\
  fst (Auth.ensureAuthenticated now later outcome s)
  = match outcome with
    | Responded status data => Auth.has_token data
    | _ => false
    end.
Proof.
  intros Hstale. unfold Auth.login, Auth.ensureAuthenticated. rewrite Hstale.
  destruct outcome as [status data | status data message | message]; simpl;
    [destruct (Auth.has_token data)|..]; repeat split.
Qed.

Lemma login_agrees_with_ensureAuthenticated_witness :
  fst (Auth.login 1200 (Responded 200 (JObj [("token", JStr "abc")])) Auth.initial)
  = Ok (JObj [("token", JStr "abc")]) /\
  snd (Auth.login 1200 (Responded 200 (JObj [("token", JStr "abc")])) Auth.initial)
  = snd (Auth.ensureAuthenticated 1000 1200
           (Responded 200 (JObj [("token", JStr "abc")])) Auth.initial) /\
  fst (Auth.ensureAuthenticated 1000 1200
         (Responded 200 (JObj [("token", JStr "abc")])) Auth.initial) = true.
Proof.
  apply (login_agrees_with_ensureAuthenticated 1000 1200
           (Responded 200 (JObj [("token", JStr "abc")])) Auth.initial).
  reflexivity.
Defined.

(** * Properties of the store's start-up *)

(** X28: without an endpoint or without a key the service has no client,
    and [initialize] answers [false] whatever Cosmos DB would answer,
    leaving no database and no container: every later [saveMessage]
    answers [null] and every history is empty. *)
Theorem missing_config_disables_store endpoint key created a env message st :
  endpoint = None \/ endpoint = Some "" \/ key = None \/ key = Some "" ->
  Cosmos.initialize a (Cosmos.construct endpoint key created)
  = (false, Cosmos.MkService false false None) /\
  (st_container st
   = Cosmos.documents (snd (Cosmos.initialize a (Cosmos.construct endpoint key created))) ->
   saveMessage env message st = (Ok None, st) /\
   getConversationHistory env (msg_userId message) default_limit st = (Ok [], st)).
Proof.
  intros Hmissing.
  assert (Hfresh : Cosmos.construct endpoint key created = Cosmos.MkService false false None).
  { unfold Cosmos.construct.
    destruct endpoint as [e|], key as [k|]; try reflexivity.
    destruct Hmissing as [H | [H | [H | H]]]; try discriminate H;
      injection H as ->; [reflexivity | now rewrite orb_true_r]. }
  rewrite Hfresh. split; [reflexivity|]. simpl. intros Hc.
  unfold saveMessage, getConversationHistory. now rewrite Hc.
Qed.

Lemma missing_config_disables_store_witness :
  Cosmos.initialize (Cosmos.MkAnswers true true (Some []) true true)
    (Cosmos.construct (Some "https://example.documents.azure.com") None true)
  = (false, Cosmos.MkService false false None).
Proof.
  apply (missing_config_disables_store (Some "https://example.documents.azure.com") None
           true (Cosmos.MkAnswers true true (Some []) true true)
           (Sample.env (Replied None) (NoResponse "") "2024-05-01T10:03:00.000Z")
           (Sample.said "2024-05-01T10:02:00.000Z" "hello")
           (start Sample.session Sample.world)).
  right. right. left. reflexivity.
Defined.

(** X29: [initialize] can answer [false] with the container in place.
    When the write test fails after the container was obtained, the
    service keeps the container, so the gateway, which only logs the
    answer, stores and reads messages all the same. *)
Theorem failed_write_test_leaves_store_usable a s docs env message st :
  Cosmos.client s = true ->
  Cosmos.account a = true ->
  Cosmos.database_created a = true ->
  Cosmos.container_created a = Some docs ->
  Cosmos.test_written a = false ->
  st_container st = Cosmos.documents (snd (Cosmos.initialize a s)) ->
  db env (st_requests st) = true ->
  fst (Cosmos.initialize a s) = false /\
  fst (saveMessage env message st) = Ok (Some message) /\
  st_container (snd (saveMessage env message st)) = Some (docs ++ [message]).
Proof.
  intros Hclient Haccount Hdatabase Hcontainer Hwrite.
  unfold Cosmos.initialize.
  rewrite Hclient, Haccount, Hdatabase, Hcontainer, Hwrite. simpl.
  intros Hc Hdb. unfold saveMessage. rewrite Hc, Hdb. repeat split.
Qed.

Lemma failed_write_test_leaves_store_usable_witness :
  fst (Cosmos.initialize (Cosmos.MkAnswers true true (Some Reopen.history) false false)
         (Cosmos.construct (Some "https://example.documents.azure.com") (Some "key") true))
  = false /\
  fst (saveMessage (Sample.env (Replied None) (NoResponse "") "2024-05-01T10:03:00.000Z")
         (Sample.said "2024-05-01T10:02:00.000Z" "hello")
         (start Reopen.session Reopen.world))
  = Ok (Some (Sample.said "2024-05-01T10:02:00.000Z" "hello")) /\
  st_container
    (snd (saveMessage (Sample.env (Replied None) (NoResponse "") "2024-05-01T10:03:00.000Z")
            (Sample.said "2024-05-01T10:02:00.000Z" "hello")
            (start Reopen.session Reopen.world)))
  = Some (Reopen.history ++ [Sample.said "2024-05-01T10:02:00.000Z" "hello"]).
Proof.
  apply (failed_write_test_leaves_store_usable
           (Cosmos.MkAnswers true true (Some Reopen.history) false false)
           (Cosmos.construct (Some "https://example.documents.azure.com") (Some "key") true)
           Reopen.history
           (Sample.env (Replied None) (NoResponse "") "2024-05-01T10:03:00.000Z")
           (Sample.said "2024-05-01T10:02:00.000Z" "hello")
           (start Reopen.session Reopen.world)).
  - reflexivity.
  - reflexivity.
  - reflexivity.
  - reflexivity.
  - reflexivity.
  - reflexivity.
  - reflexivity.
Defined.

(** * Properties of the composer's request *)

Lemma chat_messages_of_roles conversation ms :
  chat_messages_of conversation = Ok ms ->
  length ms = length conversation /\
  Forall (fun m => fst m = "user" \/ fst m = "assistant") ms.
Proof.
  revert ms. induction conversation as [|msg rest IH]; intros ms; simpl.
  - intros [= <-]. split; [reflexivity | constructor].
  - unfold chat_message. destruct (get msg "sender") as [sender|e]; [|discriminate].
    destruct (chat_messages_of rest) as [ms'|e]; [|discriminate].
    intros [= <-]. destruct (IH ms' eq_refl) as [Hlen Hroles]. split.
    + simpl. now rewrite Hlen.
    + constructor; [|exact Hroles]. simpl.
      destruct (is_str sender "user"); [now left | now right].
Qed.

(** X30: the request [generateResponse] builds has exactly one system
    message, its own brief, whatever the conversation holds: every entry
    of the conversation is sent as [user] or [assistant].  So the
    instruction prompt that the gateway passes with sender ['system']
    reaches the model as an [assistant] message. *)
Theorem composer_sends_one_system_message conversation ms :
  chat_messages conversation = Ok ms ->
  exists rest,
    ms = ("system", JStr assistant_brief) :: rest /\
    length rest = length conversation /\
    Forall (fun m => fst m <> "system") rest /\
    forall aiPrompt content,
      chat_messages (prompted aiPrompt content)
      = Ok [("system", JStr assistant_brief); ("assistant", aiPrompt); ("user", content)].
Proof.
  unfold chat_messages.
  destruct (chat_messages_of conversation) as [rest|e] eqn:Hrest; [|discriminate].
  intros [= <-]. exists rest.
  destruct (chat_messages_of_roles conversation rest Hrest) as [Hlen Hroles].
  split; [reflexivity|]. split; [exact Hlen|]. split; [|reflexivity].
  eapply Forall_impl; [exact Hroles|]. simpl. intros m [Hm | Hm]; rewrite Hm; discriminate.
Qed.

Lemma composer_sends_one_system_message_witness :
  exists rest,
    [("system", JStr assistant_brief); ("assistant", JStr "Summarise the result.");
     ("user", JStr "hello")]
    = ("system", JStr assistant_brief) :: rest /\
    length rest = 2.
Proof.
  destruct (composer_sends_one_system_message
              (prompted (JStr "Summarise the result.") (JStr "hello"))
              [("system", JStr assistant_brief); ("assistant", JStr "Summarise the result.");
               ("user", JStr "hello")])
    as (rest & Hms & Hlen & _).
  - reflexivity.
  - exists rest. split; [exact Hms | exact Hlen].
Defined.
